(** * Reconciliation logic of the Cosmo Terraform provider

    A shallow embedding of
    - [internal/api/token.go] (CreateToken, DeleteToken),
    - [internal/service/federated-graph/resource_cosmo_federated_graph.go]
      (Create, Read, Update, Delete, createFederatedGraph),
    - [internal/service/monograph/data_source_cosmo_monograph.go] (Read).

    Conventions.
    - A Go pointer that may be nil is an [option]; reading a field through a
      nil pointer is the run-time panic [Panics].  Generated protobuf getters
      ([GetId], [GetName], ...) are nil-safe and are total functions on the
      [option].
    - A Go [error] is the text its [Error()] method returns; the nil error is
      [None].
    - The remote control plane is a value of an arbitrary type [R] threaded
      through every call, together with the log of the calls issued.
    - [ctx] only carries cancellation and logging; [utils.LogAction],
      [utils.DebugAction] and [tflog.Trace] write to the log sink and do not
      touch the response, so they are left out unless their arguments can
      panic. *)

From Stdlib Require Import String Ascii List Bool Arith Lia.
Import ListNotations.
Local Open Scope list_scope.
Local Open Scope string_scope.

(* ------------------------------------------------------------------ *)
(** ** Terraform framework values *)

(** [types.String]: null, unknown or a known value. *)
Inductive TString : Type :=
| StringNull
| StringUnknown
| StringValue (s : string).

Definition IsNull (v : TString) : bool :=
  match v with StringNull => true | _ => false end.

Definition ValueString (v : TString) : string :=
  match v with StringValue s => s | _ => "" end.

(** [ValueStringPointer]: nil for null, otherwise a pointer to the value. *)
Definition ValueStringPointer (v : TString) : option string :=
  match v with
  | StringNull => None
  | StringUnknown => Some ""
  | StringValue s => Some s
  end.

(** [types.List] with [types.StringType] elements. *)
Inductive TList : Type :=
| ListNull
| ListUnknown
| ListValue (elems : list TString).

Definition Elements (l : TList) : list TString :=
  match l with ListValue es => es | _ => [] end.

(** [types.ListValueMust(types.StringType, elems)] *)
Definition ListValueMust (elems : list TString) : TList := ListValue elems.

(** Summaries of diagnostics.  The constants live in files of the packages
    that are not part of the sources at hand, so they are kept symbolic;
    [ErrInvalidLabelMatchers] stands for whatever summary the label matcher
    helper reports under, and [Literal] is a summary written in place. *)
Inductive Summary : Type :=
| ErrCompositionError
| ErrCompositionErrors
| ErrCreatingGraph
| ErrReadingGraph
| ErrUpdatingGraph
| ErrDeletingGraph
| ErrInvalidResourceID
| ErrInvalidLabelMatchers
| ErrInvalidMonographName
| ErrReadingMonograph
| Literal (s : string).

Inductive Severity : Type := SeverityError | SeverityWarning.

Record Diagnostic : Type := mkDiagnostic {
  severity : Severity;
  summary : Summary;
  detail : string
}.

Definition Diagnostics := list Diagnostic.

Definition isError (d : Diagnostic) : bool :=
  match severity d with SeverityError => true | SeverityWarning => false end.

Definition isWarning (d : Diagnostic) : bool :=
  match severity d with SeverityWarning => true | SeverityError => false end.

(** [diag.Diagnostics.HasError] *)
Definition HasError (ds : Diagnostics) : bool := existsb isError ds.
Arguments HasError : simpl never.

Definition errors (ds : Diagnostics) : Diagnostics := filter isError ds.
Definition warnings (ds : Diagnostics) : Diagnostics := filter isWarning ds.
Arguments errors : simpl never.
Arguments warnings : simpl never.

(* ------------------------------------------------------------------ *)
(** ** Wire types *)

(** [common.EnumStatusCode]: the members the provider distinguishes and the
    rest of the enumeration by number. *)
Inductive EnumStatusCode : Type :=
| EnumStatusCode_OK
| EnumStatusCode_ERR
| EnumStatusCode_ERR_NOT_FOUND
| EnumStatusCode_ERR_SUBGRAPH_COMPOSITION_FAILED
| EnumStatusCode_other (n : nat).

Definition is_OK (c : EnumStatusCode) : bool :=
  match c with EnumStatusCode_OK => true | _ => false end.

(** Go's [error]. *)
Definition error := string.

(** [api.ApiError] *)
Record ApiError : Type := mkApiError {
  Err : error;
  Reason : string;
  Status : EnumStatusCode
}.

(** [common.Response]: the status envelope of every response. *)
Record Response : Type := mkResponse {
  Code : EnumStatusCode;
  Details : option string
}.

Definition GetDetails (r : option Response) : string :=
  match r with
  | Some r => match Details r with Some d => d | None => "" end
  | None => ""
  end.

(** [platformv1.FederatedGraph], the fields the provider reads or writes. *)
Record FederatedGraph : Type := mkFederatedGraph {
  FG_Id : string;
  FG_Name : string;
  FG_Namespace : string;
  FG_RoutingURL : string;
  FG_LabelMatchers : list string;
  FG_Readme : option string;
  FG_AdmissionWebhookUrl : option string
}.

Definition GetId (g : option FederatedGraph) : string :=
  match g with Some g => FG_Id g | None => "" end.
Definition GetName (g : option FederatedGraph) : string :=
  match g with Some g => FG_Name g | None => "" end.
Definition GetNamespace (g : option FederatedGraph) : string :=
  match g with Some g => FG_Namespace g | None => "" end.
Definition GetRoutingURL (g : option FederatedGraph) : string :=
  match g with Some g => FG_RoutingURL g | None => "" end.
Definition GetReadme (g : option FederatedGraph) : string :=
  match g with
  | Some g => match FG_Readme g with Some s => s | None => "" end
  | None => ""
  end.
Definition GetAdmissionWebhookUrl (g : option FederatedGraph) : string :=
  match g with
  | Some g => match FG_AdmissionWebhookUrl g with Some s => s | None => "" end
  | None => ""
  end.

(** [platformv1.GetFederatedGraphByNameResponse] *)
Record GetFederatedGraphByNameResponse : Type := mkGetResponse {
  Graph : option FederatedGraph
}.

(** [platformv1.CompositionError] *)
Record CompositionError : Type := mkCompositionError {
  CE_Message : string;
  CE_FederatedGraphName : string;
  CE_Namespace : string
}.

(** [platformv1.UpdateFederatedGraphResponse] *)
Record UpdateFederatedGraphResponse : Type := mkUpdateResponse {
  CompositionErrors : list CompositionError
}.

(** [platformv1.CreateFederatedGraphResponse] *)
Record CreateFederatedGraphResponse : Type := mkCreateResponse {
  Create_CompositionErrors : list CompositionError
}.

(** [platformv1.CreateFederatedGraphTokenRequest] *)
Record CreateFederatedGraphTokenRequest : Type := mkCreateTokenRequest {
  CT_GraphName : string;
  CT_Namespace : string;
  CT_TokenName : string
}.

(** [platformv1.CreateFederatedGraphTokenResponse] *)
Record CreateFederatedGraphTokenResponse : Type := mkCreateTokenResponse {
  CT_Response : option Response;
  Token : string
}.

(** [platformv1.DeleteRouterTokenRequest] *)
Record DeleteRouterTokenRequest : Type := mkDeleteTokenRequest {
  DT_TokenName : string;
  DT_Namespace : string
}.

(** [platformv1.DeleteRouterTokenResponse] *)
Record DeleteRouterTokenResponse : Type := mkDeleteTokenResponse {
  DT_Response : option Response
}.

(** What an RPC stub hands back: a transport error, or a [connect.Response]
    whose [Msg] may be nil. *)
Inductive RpcResult (T : Type) : Type :=
| RpcError (err : error)
| RpcResponse (Msg : option T).
Arguments RpcError {T} err.
Arguments RpcResponse {T} Msg.

(* ------------------------------------------------------------------ *)
(** ** The remote side and the calls made to it *)

Inductive Call : Type :=
| CallCreateFederatedGraph (secret : option string) (g : FederatedGraph)
| CallGetFederatedGraph (name namespace : string)
| CallUpdateFederatedGraph (secret : option string) (g : FederatedGraph)
| CallDeleteFederatedGraph (name namespace : string)
| CallGetMonograph (name namespace : string)
| CallCreateFederatedGraphToken (rq : CreateFederatedGraphTokenRequest)
| CallDeleteRouterToken (rq : DeleteRouterTokenRequest).

(** [api.PlatformClient].  [Client_*] are the generated RPC stubs reached
    through [p.Client]; the graph methods are defined in files of package
    [api] that are not at hand and are taken as they are declared: each
    returns a response pointer and an [ApiError] pointer, either of which may be
    nil. *)
Record PlatformClient (R : Type) : Type := mkPlatformClient {
  Client_CreateFederatedGraphToken :
    CreateFederatedGraphTokenRequest -> R ->
    RpcResult CreateFederatedGraphTokenResponse * R;
  Client_DeleteRouterToken :
    DeleteRouterTokenRequest -> R -> RpcResult DeleteRouterTokenResponse * R;
  CreateFederatedGraph :
    option string -> FederatedGraph -> R ->
    (option CreateFederatedGraphResponse * option ApiError) * R;
  GetFederatedGraph :
    string -> string -> R ->
    (option GetFederatedGraphByNameResponse * option ApiError) * R;
  UpdateFederatedGraph :
    option string -> FederatedGraph -> R ->
    (option UpdateFederatedGraphResponse * option ApiError) * R;
  DeleteFederatedGraph : string -> string -> R -> option ApiError * R;
  GetMonograph :
    string -> string -> R -> (option FederatedGraph * option ApiError) * R
}.
Arguments Client_CreateFederatedGraphToken {R} _ _ _.
Arguments Client_DeleteRouterToken {R} _ _ _.
Arguments CreateFederatedGraph {R} _ _ _ _.
Arguments GetFederatedGraph {R} _ _ _ _.
Arguments UpdateFederatedGraph {R} _ _ _ _.
Arguments DeleteFederatedGraph {R} _ _ _ _.
Arguments GetMonograph {R} _ _ _ _.

(** The world a call runs in: the remote state and the calls issued so far,
    oldest first. *)
Record World (R : Type) : Type := mkWorld {
  remote : R;
  calls : list Call
}.
Arguments mkWorld {R} _ _.
Arguments remote {R} _.
Arguments calls {R} _.

(** A run either returns a value or stops in a nil-pointer panic. *)
Inductive Outcome (R A : Type) : Type :=
| Returns (a : A) (w : World R)
| Panics (w : World R).
Arguments Returns {R A} a w.
Arguments Panics {R A} w.

Definition M (R A : Type) : Type := World R -> Outcome R A.

Definition ret {R A} (a : A) : M R A := fun w => Returns a w.

Definition bind {R A B} (m : M R A) (k : A -> M R B) : M R B :=
  fun w => match m w with
           | Returns a w' => k a w'
           | Panics w' => Panics w'
           end.

Definition panic {R A} : M R A := fun w => Panics w.

(** Reading a field through a pointer. *)
Definition deref {R A} (p : option A) : M R A :=
  match p with Some a => ret a | None => panic end.

(** One remote call: log it, then let the remote answer. *)
Definition call {R A} (c : Call) (f : R -> A * R) : M R A :=
  fun w => let (a, r') := f (remote w) in
           Returns a (mkWorld r' (calls w ++ [c])%list).

Declare Scope go_scope.
Delimit Scope go_scope with go.
Notation "x <- m ;; k" := (bind m (fun x => k))
  (at level 61, m at next level, right associativity) : go_scope.
Notation "' pat <- m ;; k" := (bind m (fun x => match x with pat => k end))
  (at level 61, pat pattern, m at next level, right associativity) : go_scope.
Local Open Scope go_scope.

Definition returned {R A} (o : Outcome R A) : option A :=
  match o with Returns a _ => Some a | Panics _ => None end.

Definition world_of {R A} (o : Outcome R A) : World R :=
  match o with Returns _ w => w | Panics w => w end.

(** Substring test, for statements about error texts. *)
Fixpoint contains (sub s : string) : bool :=
  match s with
  | EmptyString => String.eqb sub ""
  | String _ s' => String.prefix sub s || contains sub s'
  end.

(* ------------------------------------------------------------------ *)
(** ** Resource models, requests and responses *)

(** [FederatedGraphResourceModel] *)
Record FederatedGraphResourceModel : Type := mkModel {
  Id : TString;
  Name : TString;
  Namespace : TString;
  Readme : TString;
  RoutingURL : TString;
  AdmissionWebhookUrl : TString;
  AdmissionWebhookSecret : TString;
  LabelMatchers : TList
}.

Definition set_Id (v : TString) (d : FederatedGraphResourceModel) :=
  mkModel v (Name d) (Namespace d) (Readme d) (RoutingURL d)
          (AdmissionWebhookUrl d) (AdmissionWebhookSecret d) (LabelMatchers d).
Definition set_Name (v : TString) (d : FederatedGraphResourceModel) :=
  mkModel (Id d) v (Namespace d) (Readme d) (RoutingURL d)
          (AdmissionWebhookUrl d) (AdmissionWebhookSecret d) (LabelMatchers d).
Definition set_Namespace (v : TString) (d : FederatedGraphResourceModel) :=
  mkModel (Id d) (Name d) v (Readme d) (RoutingURL d)
          (AdmissionWebhookUrl d) (AdmissionWebhookSecret d) (LabelMatchers d).
Definition set_RoutingURL (v : TString) (d : FederatedGraphResourceModel) :=
  mkModel (Id d) (Name d) (Namespace d) (Readme d) v
          (AdmissionWebhookUrl d) (AdmissionWebhookSecret d) (LabelMatchers d).
Definition set_LabelMatchers (v : TList) (d : FederatedGraphResourceModel) :=
  mkModel (Id d) (Name d) (Namespace d) (Readme d) (RoutingURL d)
          (AdmissionWebhookUrl d) (AdmissionWebhookSecret d) v.

(** A [tfsdk.Plan] or [tfsdk.State] of a request, seen through [Get]: the
    model it decodes into and the diagnostics the decoding reports. *)
Record Source : Type := mkSource {
  Raw : FederatedGraphResourceModel;
  GetDiags : Diagnostics
}.

Record CreateRequest : Type := mkCreateRequest { Create_Plan : Source }.
Record ReadRequest : Type := mkReadRequest { Read_State : Source }.
Record UpdateRequest : Type := mkUpdateRequest { Update_Plan : Source }.
Record DeleteRequest : Type := mkDeleteRequest { Delete_State : Source }.

(** [resource.CreateResponse], [ReadResponse], [UpdateResponse] and
    [DeleteResponse] all carry the state the host will store and the
    diagnostics; [State = None] is the removed (null) state.  The host fills
    [State] with the prior state before it calls Read, Update or Delete. *)
Record ResourceResponse : Type := mkResourceResponse {
  State : option FederatedGraphResourceModel;
  RDiagnostics : Diagnostics
}.

(** [resp.Diagnostics.Append(ds...)] *)
Definition Diagnostics_Append (resp : ResourceResponse) (ds : Diagnostics) :=
  mkResourceResponse (State resp) (RDiagnostics resp ++ ds)%list.

(** [resp.State.Set(ctx, &data)]: the model has the schema's type, so the
    encoding reports nothing. *)
Definition State_Set (resp : ResourceResponse) (data : FederatedGraphResourceModel) :=
  mkResourceResponse (Some data) (RDiagnostics resp).

(** [resp.State.RemoveResource(ctx)] *)
Definition State_RemoveResource (resp : ResourceResponse) :=
  mkResourceResponse None (RDiagnostics resp).

(** Modelled from the spec: [utils.AddDiagnosticError] is not among the
    sources.  Section 4.4: an outcome is surfaced as a fatal error or as a
    non-fatal warning attached to the invocation. *)
Definition AddDiagnosticError (resp : ResourceResponse) (s : Summary) (msg : string) :=
  Diagnostics_Append resp [mkDiagnostic SeverityError s msg].

(** Modelled from the spec: [utils.AddDiagnosticWarning] is not among the
    sources; see [AddDiagnosticError]. *)
Definition AddDiagnosticWarning (resp : ResourceResponse) (s : Summary) (msg : string) :=
  Diagnostics_Append resp [mkDiagnostic SeverityWarning s msg].

(* ------------------------------------------------------------------ *)
(** ** Label matcher codec *)

Module LabelMatcher.

(** Splits at the first [=]. *)
Fixpoint cut (s : string) : option (string * string) :=
  match s with
  | EmptyString => None
  | String c r =>
      if Ascii.eqb c "="%char then Some (EmptyString, r)
      else match cut r with
           | Some (k, v) => Some (String c k, v)
           | None => None
           end
  end.

Fixpoint has_eq (s : string) : bool :=
  match s with
  | EmptyString => false
  | String c r => Ascii.eqb c "="%char || has_eq r
  end.

(** Modelled from the spec: the codec is not among the sources.  Section
    4.1: each entry must match [key=value] with a non-empty key, a
    non-empty value and a single [=]. *)
Definition valid (s : string) : bool :=
  match cut s with
  | Some (k, v) =>
      negb (String.eqb k "") && negb (String.eqb v "") && negb (has_eq v)
  | None => false
  end.

(** Modelled from the spec: section 4.1, [validate]: the entries in
    order, or the first malformed entry. *)
Fixpoint validate (l : list string) : list string + string :=
  match l with
  | [] => inl []
  | x :: r =>
      if valid x then
        match validate r with
        | inl r' => inl (x :: r')
        | inr bad => inr bad
        end
      else inr x
  end.

End LabelMatcher.

(** Modelled from the spec: [utils.ConvertAndValidateLabelMatchers] is not
    among the sources.  It turns the list value into Go strings, validates
    them (section 4.1) and, on the first malformed entry, reports an error
    that names the entry on the response it was given. *)
Definition ConvertAndValidateLabelMatchers (data : TList) (resp : ResourceResponse)
  : ResourceResponse * (list string * option error) :=
  match LabelMatcher.validate (map ValueString (Elements data)) with
  | inl l => (resp, (l, None))
  | inr bad =>
      let msg := "invalid label matcher: " ++ bad in
      (AddDiagnosticError resp ErrInvalidLabelMatchers msg, ([], Some msg))
  end.

(* ------------------------------------------------------------------ *)
(** ** What the sources use from elsewhere *)

(** Functions of package [api] and of the formatting of generated messages
    that the code calls but whose definitions are not at hand.  Nothing is
    assumed about them: every statement below holds for all of them. *)
Record Externals : Type := mkExternals {
  (** the [Error()] method of [ApiError] *)
  ApiError_Error : ApiError -> string;
  (** [api.IsNotFoundError] *)
  IsNotFoundError : ApiError -> bool;
  (** [api.IsSubgraphCompositionFailedError] *)
  IsSubgraphCompositionFailedError : ApiError -> bool;
  (** [%v] of a slice of [CompositionError] pointers *)
  Sprint_CompositionErrors : list CompositionError -> string;
  (** [%s] of a [DeleteRouterTokenResponse] pointer *)
  Sprint_DeleteRouterTokenResponse : DeleteRouterTokenResponse -> string
}.

(* ------------------------------------------------------------------ *)
(** ** Package api: token.go *)

Module api.
Section Token.
Context {R : Type}.
Variable X : Externals.
Variable p : PlatformClient R.

Definition CreateToken (name graphName namespace : string)
  : M R (string * option error) :=
  let request := mkCreateTokenRequest graphName namespace name in
  response <- call (CallCreateFederatedGraphToken request)
                   (Client_CreateFederatedGraphToken p request) ;;
  match response with
  | RpcError err => ret ("", Some err)
  | RpcResponse None =>
      ret ("", Some "failed to create token, the server response is nil")
  | RpcResponse (Some msg) =>
      r <- deref (CT_Response msg) ;;
      if negb (is_OK (Code r)) then
        ret ("", Some ("failed to create token: " ++ GetDetails (CT_Response msg)))
      else ret (Token msg, None)
  end.

Definition DeleteToken (tokenName graphName namespace : string)
  : M R (option error) :=
  let request := mkDeleteTokenRequest tokenName namespace in
  response <- call (CallDeleteRouterToken request)
                   (Client_DeleteRouterToken p request) ;;
  match response with
  | RpcError err => ret (Some ("failed to delete token: " ++ err))
  | RpcResponse None =>
      ret (Some "failed to delete token, the server response is nil")
  | RpcResponse (Some msg) =>
      r <- deref (DT_Response msg) ;;
      if negb (is_OK (Code r)) then
        ret (Some ("failed to delete token: "
                     ++ Sprint_DeleteRouterTokenResponse X msg))
      else ret None
  end.

End Token.
End api.

(* ------------------------------------------------------------------ *)
(** ** Package federated_graph: the resource *)

Module federated_graph.
Section Resource.
Context {R : Type}.
Variable X : Externals.
Variable p : PlatformClient R.

(** The [platformv1.FederatedGraph] literal that both
    [createFederatedGraph] and [Update] build from the model. *)
Definition apiGraph (data : FederatedGraphResourceModel)
           (labelMatchers : list string) : FederatedGraph :=
  {| FG_Id := "";
     FG_Name := ValueString (Name data);
     FG_Namespace := ValueString (Namespace data);
     FG_RoutingURL := ValueString (RoutingURL data);
     FG_LabelMatchers := labelMatchers;
     FG_Readme := ValueStringPointer (Readme data);
     FG_AdmissionWebhookUrl := ValueStringPointer (AdmissionWebhookUrl data) |}.

(** [var admissionWebhookSecret *string; if !IsNull() { ... }] *)
Definition admissionWebhookSecret (data : FederatedGraphResourceModel)
  : option string :=
  if negb (IsNull (AdmissionWebhookSecret data))
  then ValueStringPointer (AdmissionWebhookSecret data)
  else None.

(** [data.Id.IsNull() || data.Id.ValueString() == ""] *)
Definition missingId (data : FederatedGraphResourceModel) : bool :=
  IsNull (Id data) || String.eqb (ValueString (Id data)) "".

Definition createFederatedGraph (data : FederatedGraphResourceModel)
           (resp : ResourceResponse)
  : M R (ResourceResponse
         * (option GetFederatedGraphByNameResponse * option ApiError)) :=
  let '(resp, (labelMatchers, err)) :=
    ConvertAndValidateLabelMatchers (LabelMatchers data) resp in
  match err with
  | Some err =>
      ret (resp, (None, Some (mkApiError err "CreateFederatedGraph"
                                         EnumStatusCode_ERR)))
  | None =>
      let apiGraph := apiGraph data labelMatchers in
      let admissionWebhookSecret := admissionWebhookSecret data in
      '(_, apiError) <- call (CallCreateFederatedGraph admissionWebhookSecret apiGraph)
                             (CreateFederatedGraph p admissionWebhookSecret apiGraph) ;;
      match
        match apiError with
        | Some e =>
            if IsSubgraphCompositionFailedError X e
            then inl (AddDiagnosticWarning resp ErrCompositionError
                                           (ApiError_Error X e))
            else inr e
        | None => inl resp
        end
      with
      | inr e => ret (resp, (None, Some e))
      | inl resp =>
          '(response, apiError) <-
            call (CallGetFederatedGraph (FG_Name apiGraph) (FG_Namespace apiGraph))
                 (GetFederatedGraph p (FG_Name apiGraph) (FG_Namespace apiGraph)) ;;
          match apiError with
          | Some e => ret (resp, (None, Some e))
          | None =>
              (* utils.DebugAction(..., response.Graph.GetId(), response.Graph) *)
              _ <- deref response ;;
              ret (resp, (response, None))
          end
      end
  end.

Definition Create (req : CreateRequest) (resp : ResourceResponse)
  : M R ResourceResponse :=
  let data := Raw (Create_Plan req) in
  let resp := Diagnostics_Append resp (GetDiags (Create_Plan req)) in
  if HasError (RDiagnostics resp) then ret resp else
  '(resp, (response, apiError)) <- createFederatedGraph data resp ;;
  match
    match apiError with
    | Some e =>
        if IsSubgraphCompositionFailedError X e
        then inl (AddDiagnosticWarning
                    (AddDiagnosticWarning resp ErrCompositionError
                                          (ApiError_Error X e))
                    ErrCompositionError (ApiError_Error X e))
        else inr (AddDiagnosticError resp ErrCreatingGraph
                                     (ApiError_Error X e))
    | None => inl resp
    end
  with
  | inr resp => ret resp
  | inl resp =>
      response <- deref response ;;
      let graph := Graph response in
      let data := set_Id (StringValue (GetId graph)) data in
      let data := set_Name (StringValue (GetName graph)) data in
      let data := set_Namespace (StringValue (GetNamespace graph)) data in
      let data := set_RoutingURL (StringValue (GetRoutingURL graph)) data in
      ret (State_Set resp data)
  end.

Definition Read (req : ReadRequest) (resp : ResourceResponse)
  : M R ResourceResponse :=
  let data := Raw (Read_State req) in
  let resp := Diagnostics_Append resp (GetDiags (Read_State req)) in
  if HasError (RDiagnostics resp) then ret resp else
  if missingId data then
    ret (AddDiagnosticError resp ErrInvalidResourceID
                            "Cannot read federated graph without an ID.")
  else
  '(apiResponse, err) <-
    call (CallGetFederatedGraph (ValueString (Name data)) (ValueString (Namespace data)))
         (GetFederatedGraph p (ValueString (Name data)) (ValueString (Namespace data))) ;;
  match err with
  | Some err =>
      if IsNotFoundError X err then
        let resp := AddDiagnosticWarning resp (Literal "Graph not found")
                      ("Graph '" ++ ValueString (Name data)
                                 ++ "' not found will be recreated") in
        ret (State_RemoveResource resp)
      else
        ret (AddDiagnosticError resp ErrReadingGraph
               ("Could not fetch subgraph '" ++ ValueString (Name data)
                  ++ "': " ++ ApiError_Error X err))
  | None =>
      apiResponse <- deref apiResponse ;;
      let graph := Graph apiResponse in
      let data := set_Id (StringValue (GetId graph)) data in
      let data := set_Name (StringValue (GetName graph)) data in
      let data := set_Namespace (StringValue (GetNamespace graph)) data in
      let data := set_RoutingURL (StringValue (GetRoutingURL graph)) data in
      (* graph.LabelMatchers is a field read, not a getter *)
      g <- deref graph ;;
      let labelMatchers := map StringValue (FG_LabelMatchers g) in
      let data := set_LabelMatchers (ListValueMust labelMatchers) data in
      ret (State_Set resp data)
  end.

Definition Update (req : UpdateRequest) (resp : ResourceResponse)
  : M R ResourceResponse :=
  let data := Raw (Update_Plan req) in
  let resp := Diagnostics_Append resp (GetDiags (Update_Plan req)) in
  if HasError (RDiagnostics resp) then ret resp else
  if missingId data then
    ret (AddDiagnosticError resp ErrInvalidResourceID
           ("Cannot update federated graph because the resource ID is missing. Graph name: "
              ++ ValueString (Name data) ++ ", graph namespace: "
              ++ ValueString (Namespace data)))
  else
  let '(resp, (labelMatchers, err)) :=
    ConvertAndValidateLabelMatchers (LabelMatchers data) resp in
  match err with
  | Some _ => ret resp
  | None =>
      let graph := apiGraph data labelMatchers in
      let admissionWebhookSecret := admissionWebhookSecret data in
      '(apiResponse, apiError) <-
        call (CallUpdateFederatedGraph admissionWebhookSecret graph)
             (UpdateFederatedGraph p admissionWebhookSecret graph) ;;
      match
        match apiError with
        | Some e =>
            if IsSubgraphCompositionFailedError X e
            then inl (AddDiagnosticWarning resp ErrCompositionErrors
                                           (ApiError_Error X e))
            else inr (AddDiagnosticError resp ErrUpdatingGraph
                                         (ApiError_Error X e))
        | None => inl resp
        end
      with
      | inr resp => ret resp
      | inl resp =>
          apiResponse <- deref apiResponse ;;
          if Nat.ltb 0 (List.length (CompositionErrors apiResponse)) then
            ret (AddDiagnosticWarning resp ErrCompositionError
                   ("Composition errors: "
                      ++ Sprint_CompositionErrors X (CompositionErrors apiResponse)
                      ++ ", graph name: " ++ GetName (Some graph)
                      ++ ", graph namespace: " ++ GetNamespace (Some graph)))
          else ret (State_Set resp data)
      end
  end.

Definition Delete (req : DeleteRequest) (resp : ResourceResponse)
  : M R ResourceResponse :=
  let data := Raw (Delete_State req) in
  let resp := Diagnostics_Append resp (GetDiags (Delete_State req)) in
  if HasError (RDiagnostics resp) then ret resp else
  if missingId data then
    ret (AddDiagnosticError resp ErrInvalidResourceID
           ("Cannot delete the federated graph because the resource ID is missing. Graph name: "
              ++ ValueString (Name data) ++ ", graph namespace: "
              ++ ValueString (Namespace data)))
  else
  err <- call (CallDeleteFederatedGraph (ValueString (Name data)) (ValueString (Namespace data)))
              (DeleteFederatedGraph p (ValueString (Name data)) (ValueString (Namespace data))) ;;
  match err with
  | Some err =>
      ret (AddDiagnosticError resp ErrDeletingGraph
             ("Could not delete federated graph: " ++ ApiError_Error X err
                ++ ", graph name: " ++ ValueString (Name data)
                ++ ", graph namespace: " ++ ValueString (Namespace data)))
  | None => ret resp
  end.

End Resource.
End federated_graph.

(* ------------------------------------------------------------------ *)
(** ** Package monograph: the data source *)

Module monograph.

(** [MonographDataSourceModel] *)
Record MonographDataSourceModel : Type := mkModel {
  Id : TString;
  Name : TString;
  Namespace : TString;
  Readme : TString;
  RoutingURL : TString;
  AdmissionWebhookSecret : TString;
  LabelMatchers : TList;
  WebsocketSubprotocol : TString;
  SubscriptionProtocol : TString;
  AdmissionWebhookURL : TString
}.

(** [req.Config] seen through [Get]. *)
Record Config : Type := mkConfig {
  Raw : MonographDataSourceModel;
  GetDiags : Diagnostics
}.

Record ReadRequest : Type := mkReadRequest { Read_Config : Config }.

(** [datasource.ReadResponse] *)
Record ReadResponse : Type := mkReadResponse {
  State : option MonographDataSourceModel;
  RDiagnostics : Diagnostics
}.

(** Modelled from the spec: [utils.AddDiagnosticError] on a data source
    response; see [AddDiagnosticError] above. *)
Definition AddDiagnosticError (resp : ReadResponse) (s : Summary) (msg : string) :=
  mkReadResponse (State resp)
                 (RDiagnostics resp ++ [mkDiagnostic SeverityError s msg])%list.

Section DataSource.
Context {R : Type}.
Variable X : Externals.
Variable p : PlatformClient R.

Definition Read (req : ReadRequest) (resp : ReadResponse) : M R ReadResponse :=
  let data := Raw (Read_Config req) in
  let resp := mkReadResponse (State resp)
                (RDiagnostics resp ++ GetDiags (Read_Config req))%list in
  if HasError (RDiagnostics resp) then ret resp else
  if IsNull (Name data) || String.eqb (ValueString (Name data)) "" then
    ret (AddDiagnosticError resp ErrInvalidMonographName
           ("The 'name' attribute is required for monograph in namespace: "
              ++ ValueString (Namespace data)))
  else
  let namespace := ValueString (Namespace data) in
  let namespace := if String.eqb namespace "" then "default" else namespace in
  '(monograph, err) <- call (CallGetMonograph (ValueString (Name data)) namespace)
                            (GetMonograph p (ValueString (Name data)) namespace) ;;
  match err with
  | Some err =>
      ret (AddDiagnosticError resp ErrReadingMonograph
             ("Could not read monograph: " ++ ApiError_Error X err
                ++ ", name: " ++ ValueString (Name data)
                ++ ", namespace: " ++ namespace))
  | None =>
      let data :=
        {| Id := StringValue (GetId monograph);
           Name := StringValue (GetName monograph);
           Namespace := StringValue (GetNamespace monograph);
           Readme := StringValue (GetReadme monograph);
           RoutingURL := StringValue (GetRoutingURL monograph);
           AdmissionWebhookSecret := AdmissionWebhookSecret data;
           LabelMatchers := LabelMatchers data;
           WebsocketSubprotocol := WebsocketSubprotocol data;
           SubscriptionProtocol := SubscriptionProtocol data;
           AdmissionWebhookURL := StringValue (GetAdmissionWebhookUrl monograph) |} in
      ret (mkReadResponse (Some data) (RDiagnostics resp))
  end.

End DataSource.
End monograph.

(* ------------------------------------------------------------------ *)
(** ** Concrete remotes and inputs *)

Module Fixtures.

(** Classification by status code and a plain rendering of errors. *)
Definition byStatus : Externals :=
  {| ApiError_Error := fun e => Reason e ++ ": " ++ Err e;
     IsNotFoundError := fun e =>
       match Status e with EnumStatusCode_ERR_NOT_FOUND => true | _ => false end;
     IsSubgraphCompositionFailedError := fun e =>
       match Status e with
       | EnumStatusCode_ERR_SUBGRAPH_COMPOSITION_FAILED => true
       | _ => false
       end;
     Sprint_CompositionErrors := fun l => String.concat ", " (map CE_Message l);
     Sprint_DeleteRouterTokenResponse := fun m => GetDetails (DT_Response m) |}.

(** A remote without state that gives the same answer to every call of a
    kind. *)
Record Script : Type := mkScript {
  onCreateToken : RpcResult CreateFederatedGraphTokenResponse;
  onDeleteToken : RpcResult DeleteRouterTokenResponse;
  onCreate : option CreateFederatedGraphResponse * option ApiError;
  onGet : option GetFederatedGraphByNameResponse * option ApiError;
  onUpdate : option UpdateFederatedGraphResponse * option ApiError;
  onDelete : option ApiError;
  onGetMonograph : option FederatedGraph * option ApiError
}.

Definition scripted (s : Script) : PlatformClient unit :=
  {| Client_CreateFederatedGraphToken := fun _ r => (onCreateToken s, r);
     Client_DeleteRouterToken := fun _ r => (onDeleteToken s, r);
     CreateFederatedGraph := fun _ _ r => (onCreate s, r);
     GetFederatedGraph := fun _ _ r => (onGet s, r);
     UpdateFederatedGraph := fun _ _ r => (onUpdate s, r);
     DeleteFederatedGraph := fun _ _ r => (onDelete s, r);
     GetMonograph := fun _ _ r => (onGetMonograph s, r) |}.

Definition ordersGraph : FederatedGraph :=
  {| FG_Id := "fg-1"; FG_Name := "orders"; FG_Namespace := "default";
     FG_RoutingURL := "http://svc/routing";
     FG_LabelMatchers := ["team=payments"; "env=prod"];
     FG_Readme := None; FG_AdmissionWebhookUrl := None |}.

Definition compositionFailed : ApiError :=
  mkApiError "subgraph composition failed" "CreateFederatedGraph"
             EnumStatusCode_ERR_SUBGRAPH_COMPOSITION_FAILED.
Definition notFound : ApiError :=
  mkApiError "not found" "GetFederatedGraph" EnumStatusCode_ERR_NOT_FOUND.
Definition general : ApiError :=
  mkApiError "general error" "PlatformClient" EnumStatusCode_ERR.

(** Every call succeeds; the graph read is [ordersGraph]. *)
Definition happy : Script :=
  {| onCreateToken := RpcResponse (Some (mkCreateTokenResponse
                        (Some (mkResponse EnumStatusCode_OK None)) "tok"));
     onDeleteToken := RpcResponse (Some (mkDeleteTokenResponse
                        (Some (mkResponse EnumStatusCode_OK None))));
     onCreate := (Some (mkCreateResponse []), None);
     onGet := (Some (mkGetResponse (Some ordersGraph)), None);
     onUpdate := (Some (mkUpdateResponse []), None);
     onDelete := None;
     onGetMonograph := (Some ordersGraph, None) |}.

Definition with_onCreate v (s : Script) :=
  mkScript (onCreateToken s) (onDeleteToken s) v (onGet s) (onUpdate s)
           (onDelete s) (onGetMonograph s).
Definition with_onGet v (s : Script) :=
  mkScript (onCreateToken s) (onDeleteToken s) (onCreate s) v (onUpdate s)
           (onDelete s) (onGetMonograph s).
Definition with_onUpdate v (s : Script) :=
  mkScript (onCreateToken s) (onDeleteToken s) (onCreate s) (onGet s) v
           (onDelete s) (onGetMonograph s).
Definition with_onDelete v (s : Script) :=
  mkScript (onCreateToken s) (onDeleteToken s) (onCreate s) (onGet s)
           (onUpdate s) v (onGetMonograph s).
Definition with_onGetMonograph v (s : Script) :=
  mkScript (onCreateToken s) (onDeleteToken s) (onCreate s) (onGet s)
           (onUpdate s) (onDelete s) v.
Definition with_tokens c d (s : Script) :=
  mkScript c d (onCreate s) (onGet s) (onUpdate s) (onDelete s)
           (onGetMonograph s).

(** The token calls get through, but the responses carry no message. *)
Definition nilMessages : PlatformClient unit :=
  scripted (with_tokens (RpcResponse None) (RpcResponse None) happy).

(** A remote that keeps the graphs it was sent and reads them back. *)
Definition Store := list FederatedGraph.

Definition same_key (name namespace : string) (g : FederatedGraph) : bool :=
  String.eqb (FG_Name g) name && String.eqb (FG_Namespace g) namespace.

Definition put (g : FederatedGraph) (s : Store) : Store :=
  g :: filter (fun h => negb (same_key (FG_Name g) (FG_Namespace g) h)) s.

Definition inMemory : PlatformClient Store :=
  {| Client_CreateFederatedGraphToken := fun _ s => (RpcResponse None, s);
     Client_DeleteRouterToken := fun _ s => (RpcResponse None, s);
     CreateFederatedGraph := fun _ g s =>
       ((Some (mkCreateResponse []), None), put g s);
     GetFederatedGraph := fun name namespace s =>
       match find (same_key name namespace) s with
       | Some g => ((Some (mkGetResponse (Some g)), None), s)
       | None => ((None, Some notFound), s)
       end;
     UpdateFederatedGraph := fun _ g s =>
       ((Some (mkUpdateResponse []), None), put g s);
     DeleteFederatedGraph := fun name namespace s =>
       (None, filter (fun h => negb (same_key name namespace h)) s);
     GetMonograph := fun name namespace s =>
       match find (same_key name namespace) s with
       | Some g => ((Some g, None), s)
       | None => ((None, Some notFound), s)
       end |}.

(** The model of a managed [orders] graph. *)
Definition orders : FederatedGraphResourceModel :=
  {| Id := StringValue "fg-1";
     Name := StringValue "orders";
     Namespace := StringValue "default";
     Readme := StringValue "docs";
     RoutingURL := StringValue "http://svc/routing";
     AdmissionWebhookUrl := StringNull;
     AdmissionWebhookSecret := StringValue "s3cret";
     LabelMatchers := ListValue [StringValue "team=payments"; StringValue "env=prod"] |}.

(** The plan of a create: the identifier is not known yet. *)
Definition ordersPlan : FederatedGraphResourceModel :=
  set_Id StringUnknown orders.

Definition compositionFailedOnRead : ApiError :=
  mkApiError "subgraph composition failed" "GetFederatedGraph"
             EnumStatusCode_ERR_SUBGRAPH_COMPOSITION_FAILED.

(** The create ends in a composition failure and the read that follows
    fails hard. *)
Definition softThenFail : PlatformClient unit :=
  scripted (with_onGet (None, Some general)
              (with_onCreate (None, Some compositionFailed) happy)).

(** The create ends in a composition failure and the read that follows
    succeeds. *)
Definition softThenRead : PlatformClient unit :=
  scripted (with_onCreate (None, Some compositionFailed) happy).

(** The create succeeds and the read that follows is answered with the
    composition-failed status. *)
Definition softRead : PlatformClient unit :=
  scripted (with_onGet (None, Some compositionFailedOnRead) happy).

(** Neither the graph nor the monograph is there: both reads end in a
    not-found error. *)
Definition nothingThere : PlatformClient unit :=
  scripted (with_onGetMonograph (None, Some notFound)
              (with_onGet (None, Some notFound) happy)).

(** The configuration of the monograph data source in the examples. *)
Definition testMonograph : monograph.MonographDataSourceModel :=
  {| monograph.Id := StringNull;
     monograph.Name := StringValue "test";
     monograph.Namespace := StringValue "default";
     monograph.Readme := StringNull;
     monograph.RoutingURL := StringNull;
     monograph.AdmissionWebhookSecret := StringNull;
     monograph.LabelMatchers := ListNull;
     monograph.WebsocketSubprotocol := StringNull;
     monograph.SubscriptionProtocol := StringNull;
     monograph.AdmissionWebhookURL := StringNull |}.

(** An update response that reports a composition error. *)
Definition clash : UpdateFederatedGraphResponse :=
  mkUpdateResponse [mkCompositionError "field clash" "orders" "default"].

Definition fresh : ResourceResponse := mkResourceResponse None [].
Definition tracking (d : FederatedGraphResourceModel) : ResourceResponse :=
  mkResourceResponse (Some d) [].

Definition start {R} (r : R) : World R := mkWorld r [].

End Fixtures.

(** A remote that keeps what an update sends, like [Fixtures.inMemory], but
    reports the update as a composition failure with composition errors. *)
Definition degradedStore : PlatformClient Fixtures.Store :=
  {| Client_CreateFederatedGraphToken :=
       Client_CreateFederatedGraphToken Fixtures.inMemory;
     Client_DeleteRouterToken := Client_DeleteRouterToken Fixtures.inMemory;
     CreateFederatedGraph := CreateFederatedGraph Fixtures.inMemory;
     GetFederatedGraph := GetFederatedGraph Fixtures.inMemory;
     UpdateFederatedGraph := fun _ g s =>
       ((Some Fixtures.clash, Some Fixtures.compositionFailed), Fixtures.put g s);
     DeleteFederatedGraph := DeleteFederatedGraph Fixtures.inMemory;
     GetMonograph := GetMonograph Fixtures.inMemory |}.

(* ------------------------------------------------------------------ *)
(** ** Outcomes named in the statements *)

(** An invocation that stops on the identifier check: it returns in the
    world it started in (no remote call was made), the response holds an
    error, the tracked state is as it was, and, when decoding the request
    reported no error, the one diagnostic added is the [ErrInvalidResourceID]
    error. *)
Definition stops_on_missing_id {R : Type}
           (resp : ResourceResponse) (ds : Diagnostics) (w : World R)
           (o : Outcome R ResourceResponse) : Prop :=
  exists resp',
    o = Returns resp' w
    /\ HasError (RDiagnostics resp') = true
    /\ State resp' = State resp
    /\ (HasError (RDiagnostics resp ++ ds)%list = false ->
        exists msg,
          RDiagnostics resp'
          = ((RDiagnostics resp ++ ds)
               ++ [mkDiagnostic SeverityError ErrInvalidResourceID msg])%list).

(** A run that returns keeps every diagnostic that was there when the model
    had been decoded, in order, in front of what it adds. *)
Definition keeps_diagnostics {R : Type}
           (resp : ResourceResponse) (ds : Diagnostics)
           (o : Outcome R ResourceResponse) : Prop :=
  forall resp',
    returned o = Some resp' ->
    exists more, RDiagnostics resp' = ((RDiagnostics resp ++ ds) ++ more)%list.

(** A run that returns with an error among its diagnostics has left the
    tracked state as it was. *)
Definition error_keeps_state {R : Type}
           (resp : ResourceResponse) (o : Outcome R ResourceResponse) : Prop :=
  forall resp',
    returned o = Some resp' ->
    HasError (RDiagnostics resp') = true ->
    State resp' = State resp.

(** Unfolds one run of a handler down to the remote's answers. *)
Ltac run :=
  unfold federated_graph.Create, federated_graph.createFederatedGraph,
         federated_graph.Read, federated_graph.Update, federated_graph.Delete,
         api.CreateToken, api.DeleteToken, monograph.Read,
         bind, call, ret, deref, panic; cbn.

(** Splits a goal about a run along every branch the code can take. *)
Ltac paths :=
  repeat match goal with
         | |- context [CreateFederatedGraph ?p ?a ?b ?r] =>
             destruct (CreateFederatedGraph p a b r) as [[? ?] ?] eqn:?; cbn
         | |- context [GetFederatedGraph ?p ?a ?b ?r] =>
             destruct (GetFederatedGraph p a b r) as [[? ?] ?] eqn:?; cbn
         | |- context [UpdateFederatedGraph ?p ?a ?b ?r] =>
             destruct (UpdateFederatedGraph p a b r) as [[? ?] ?] eqn:?; cbn
         | |- context [DeleteFederatedGraph ?p ?a ?b ?r] =>
             destruct (DeleteFederatedGraph p a b r) as [? ?] eqn:?; cbn
         | |- context [GetMonograph ?p ?a ?b ?r] =>
             destruct (GetMonograph p a b r) as [[? ?] ?] eqn:?; cbn
         | |- context [match ?x with _ => _ end] =>
             lazymatch x with
             | context [match _ with _ => _ end] => fail
             | _ => destruct x eqn:?; cbn
             end
         end.

(* ------------------------------------------------------------------ *)
(** * Properties *)

(** ** Auxiliary facts *)

Lemma HasError_app (a b : Diagnostics) :
  HasError (a ++ b)%list = HasError a || HasError b.
Proof. unfold HasError. apply existsb_app. Qed.

Lemma HasError_snoc_error (a : Diagnostics) (s : Summary) (msg : string) :
  HasError (a ++ [mkDiagnostic SeverityError s msg])%list = true.
Proof. rewrite HasError_app. unfold HasError at 2. cbn. apply orb_true_r. Qed.

Lemma HasError_false_errors (a : Diagnostics) :
  HasError a = false -> errors a = [].
Proof.
  unfold HasError, errors. induction a as [|d a IH]; cbn; [reflexivity|].
  destruct (isError d); cbn; [discriminate|exact IH].
Qed.

Lemma errors_app (a b : Diagnostics) :
  errors (a ++ b)%list = (errors a ++ errors b)%list.
Proof. unfold errors. apply filter_app. Qed.

Lemma warnings_app (a b : Diagnostics) :
  warnings (a ++ b)%list = (warnings a ++ warnings b)%list.
Proof. unfold warnings. apply filter_app. Qed.

Lemma missingId_spec (data : FederatedGraphResourceModel) :
  federated_graph.missingId data = true <->
  IsNull (Id data) = true \/ ValueString (Id data) = "".
Proof.
  unfold federated_graph.missingId. rewrite orb_true_iff, String.eqb_eq.
  reflexivity.
Qed.

Lemma ConvertAndValidateLabelMatchers_valid
      (data : TList) (resp : ResourceResponse) (l : list string) :
  LabelMatcher.validate (map ValueString (Elements data)) = inl l ->
  ConvertAndValidateLabelMatchers data resp = (resp, (l, None)).
Proof. intros H. unfold ConvertAndValidateLabelMatchers. now rewrite H. Qed.

(** On a list of well-formed entries [validate] is the identity: same
    entries, same order. *)
Lemma validate_valid (l : list string) :
  forallb LabelMatcher.valid l = true -> LabelMatcher.validate l = inl l.
Proof.
  induction l as [|x l IH]; cbn; [reflexivity|].
  intros H. apply andb_true_iff in H as [Hx Hl].
  now rewrite Hx, (IH Hl).
Qed.

(** Whatever [validate] accepts it returns unchanged. *)
Lemma validate_inl (l r : list string) :
  LabelMatcher.validate l = inl r -> r = l.
Proof.
  revert r. induction l as [|x l IH]; cbn; intros r H.
  - now inversion H.
  - destruct (LabelMatcher.valid x); [|discriminate].
    destruct (LabelMatcher.validate l) as [r'|bad]; [|discriminate].
    inversion H; subst. f_equal. now apply IH.
Qed.

Example validate_keeps_order :
  LabelMatcher.validate ["team=payments"; "env=prod"]
  = inl ["team=payments"; "env=prod"].
Proof. reflexivity. Qed.

Example validate_names_first_offender :
  LabelMatcher.validate ["a=b"; "=b"; "c"] = inr "=b".
Proof. reflexivity. Qed.

Example valid_needs_one_separator :
  map LabelMatcher.valid ["a=b"; "=b"; "a="; "a=b=c"; "c"; ""]
  = [true; false; false; false; false; false].
Proof. reflexivity. Qed.

Lemma map_ValueString_StringValue (l : list string) :
  map ValueString (map StringValue l) = l.
Proof. induction l as [|x l IH]; cbn; [reflexivity|now rewrite IH]. Qed.

(** ** Package api *)

(** C8. When the transport succeeds and the message of the response is nil,
    [CreateToken] and [DeleteToken] return an error whose text contains
    "server response is nil", and [CreateToken] returns the empty token. *)
Theorem C8_nil_message_is_hard_failure :
  forall (R : Type) (X : Externals) (p : PlatformClient R)
         (name graphName namespace : string) (w : World R) (r' : R),
    (Client_CreateFederatedGraphToken
       p (mkCreateTokenRequest graphName namespace name) (remote w)
     = (RpcResponse None, r') ->
     exists msg,
       returned (api.CreateToken p name graphName namespace w)
       = Some ("", Some msg)
       /\ contains "server response is nil" msg = true)
    /\
    (Client_DeleteRouterToken
       p (mkDeleteTokenRequest name namespace) (remote w)
     = (RpcResponse None, r') ->
     exists msg,
       returned (api.DeleteToken X p name graphName namespace w) = Some (Some msg)
       /\ contains "server response is nil" msg = true).
Proof.
  intros R X p name graphName namespace w r'. split; intros H.
  - exists "failed to create token, the server response is nil".
    split; [|reflexivity]. run. now rewrite H.
  - exists "failed to delete token, the server response is nil".
    split; [|reflexivity]. run. now rewrite H.
Qed.

Lemma C8_nil_message_witness :
  (exists msg,
      returned (api.CreateToken Fixtures.nilMessages "ci" "orders" "default"
                                (Fixtures.start tt))
      = Some ("", Some msg)
      /\ contains "server response is nil" msg = true)
  /\
  (exists msg,
      returned (api.DeleteToken Fixtures.byStatus Fixtures.nilMessages
                                "ci" "orders" "default" (Fixtures.start tt))
      = Some (Some msg)
      /\ contains "server response is nil" msg = true).
Proof.
  destruct (C8_nil_message_is_hard_failure
              unit Fixtures.byStatus Fixtures.nilMessages "ci" "orders" "default"
              (Fixtures.start tt) tt) as [Hc Hd].
  split; [apply Hc|apply Hd]; reflexivity.
Defined.

(** C10. [DeleteToken] does not depend on [graphName]: two calls that
    differ only there send the same request, made of the token name and the
    namespace alone, and end in the same outcome. *)
Theorem C10_DeleteToken_ignores_graphName :
  forall (R : Type) (X : Externals) (p : PlatformClient R)
         (tokenName graphName1 graphName2 namespace : string) (w : World R),
    api.DeleteToken X p tokenName graphName1 namespace w
    = api.DeleteToken X p tokenName graphName2 namespace w
    /\ calls (world_of (api.DeleteToken X p tokenName graphName1 namespace w))
       = (calls w ++ [CallDeleteRouterToken
                        (mkDeleteTokenRequest tokenName namespace)])%list.
Proof.
  intros R X p tokenName g1 g2 namespace w. split; [reflexivity|].
  run.
  destruct (Client_DeleteRouterToken p _ (remote w)) as [[err|[msg|]] r'];
    cbn; try reflexivity.
  destruct (DT_Response msg) as [r|]; cbn; [|reflexivity].
  destruct (negb (is_OK (Code r))); reflexivity.
Qed.

(** ** The federated graph resource *)

(** C4. Read, Update and Delete on a model whose identifier is null or the
    empty string fail with the missing-identifier error and make no remote
    call.  (Read and Delete take the model from the current state, Update
    from the plan.) *)
Theorem C4_missing_id_fails_without_remote_call :
  forall (R : Type) (X : Externals) (p : PlatformClient R)
         (data : FederatedGraphResourceModel) (ds : Diagnostics)
         (resp : ResourceResponse) (w : World R),
    IsNull (Id data) = true \/ ValueString (Id data) = "" ->
    stops_on_missing_id resp ds w
      (federated_graph.Read X p (mkReadRequest (mkSource data ds)) resp w)
    /\ stops_on_missing_id resp ds w
      (federated_graph.Update X p (mkUpdateRequest (mkSource data ds)) resp w)
    /\ stops_on_missing_id resp ds w
      (federated_graph.Delete X p (mkDeleteRequest (mkSource data ds)) resp w).
Proof.
  intros R X p data ds resp w Hid. apply missingId_spec in Hid.
  unfold stops_on_missing_id.
  destruct (HasError (RDiagnostics resp ++ ds)%list) eqn:He;
    repeat split; run; rewrite He, ?Hid;
    eexists; (split; [reflexivity|]); cbn;
    repeat split;
    try assumption; try apply HasError_snoc_error; try discriminate;
    intros _; eexists; reflexivity.
Qed.

Lemma C4_missing_id_witness :
  stops_on_missing_id (Fixtures.tracking Fixtures.orders) [] (Fixtures.start tt)
    (federated_graph.Read Fixtures.byStatus (Fixtures.scripted Fixtures.happy)
       (mkReadRequest (mkSource (set_Id (StringValue "") Fixtures.orders) []))
       (Fixtures.tracking Fixtures.orders) (Fixtures.start tt))
  /\ stops_on_missing_id (Fixtures.tracking Fixtures.orders) [] (Fixtures.start tt)
    (federated_graph.Update Fixtures.byStatus (Fixtures.scripted Fixtures.happy)
       (mkUpdateRequest (mkSource (set_Id (StringValue "") Fixtures.orders) []))
       (Fixtures.tracking Fixtures.orders) (Fixtures.start tt))
  /\ stops_on_missing_id (Fixtures.tracking Fixtures.orders) [] (Fixtures.start tt)
    (federated_graph.Delete Fixtures.byStatus (Fixtures.scripted Fixtures.happy)
       (mkDeleteRequest (mkSource (set_Id (StringValue "") Fixtures.orders) []))
       (Fixtures.tracking Fixtures.orders) (Fixtures.start tt)).
Proof.
  apply (C4_missing_id_fails_without_remote_call
           unit Fixtures.byStatus (Fixtures.scripted Fixtures.happy)
           (set_Id (StringValue "") Fixtures.orders) []
           (Fixtures.tracking Fixtures.orders) (Fixtures.start tt)).
  right. reflexivity.
Defined.

(** When the remote read of a federated graph ends in a not-found error,
    Read of the resource removes it from the tracked state and adds exactly
    one diagnostic, a warning; the response holds no error. *)
Lemma Read_not_found_drops_resource :
  forall (R : Type) (X : Externals) (p : PlatformClient R)
         (data : FederatedGraphResourceModel) (ds : Diagnostics)
         (resp : ResourceResponse) (w : World R)
         (x : option GetFederatedGraphByNameResponse) (e : ApiError) (r' : R),
    HasError (RDiagnostics resp ++ ds)%list = false ->
    federated_graph.missingId data = false ->
    GetFederatedGraph p (ValueString (Name data)) (ValueString (Namespace data))
                       (remote w) = ((x, Some e), r') ->
    IsNotFoundError X e = true ->
    exists resp' d,
      federated_graph.Read X p (mkReadRequest (mkSource data ds)) resp w
      = Returns resp'
          (mkWorld r' (calls w ++ [CallGetFederatedGraph
                                     (ValueString (Name data))
                                     (ValueString (Namespace data))])%list)
      /\ State resp' = None
      /\ RDiagnostics resp' = ((RDiagnostics resp ++ ds) ++ [d])%list
      /\ severity d = SeverityWarning
      /\ errors (RDiagnostics resp') = [].
Proof.
  intros R X p data ds resp w x e r' Hds Hid Hget Hnf.
  eexists. eexists. run. rewrite Hds, Hid, Hget. cbn. rewrite Hnf. cbn.
  split; [reflexivity|]. repeat split.
  cbn. rewrite errors_app, (HasError_false_errors _ Hds). reflexivity.
Qed.

(** The data source has no not-found branch: whatever error the remote read
    of a monograph ends in, Read adds one diagnostic, an error, and leaves
    the state of the response as it was. *)
Lemma monograph_Read_error_is_fatal :
  forall (R : Type) (X : Externals) (p : PlatformClient R)
         (data : monograph.MonographDataSourceModel) (ds : Diagnostics)
         (resp : monograph.ReadResponse) (w : World R)
         (namespace : string)
         (z : option FederatedGraph) (e : ApiError) (r' : R),
    HasError (monograph.RDiagnostics resp ++ ds)%list = false ->
    IsNull (monograph.Name data)
    || String.eqb (ValueString (monograph.Name data)) "" = false ->
    namespace = (if String.eqb (ValueString (monograph.Namespace data)) ""
                 then "default" else ValueString (monograph.Namespace data)) ->
    GetMonograph p (ValueString (monograph.Name data)) namespace (remote w)
    = ((z, Some e), r') ->
    exists resp' msg,
      returned (monograph.Read X p
                  (monograph.mkReadRequest (monograph.mkConfig data ds)) resp w)
      = Some resp'
      /\ monograph.State resp' = monograph.State resp
      /\ monograph.RDiagnostics resp'
         = ((monograph.RDiagnostics resp ++ ds)
              ++ [mkDiagnostic SeverityError ErrReadingMonograph msg])%list
      /\ warnings (monograph.RDiagnostics resp')
         = warnings (monograph.RDiagnostics resp ++ ds)%list.
Proof.
  intros R X p data ds resp w namespace z e r' Hds Hname -> Hget.
  eexists. eexists. run. rewrite Hds, Hname, Hget. cbn.
  repeat split. cbn. rewrite warnings_app. apply app_nil_r.
Qed.

(** C3, as stated, fails on the monograph data source: when its remote read
    ends in a not-found error, Read reports an error, not a warning. *)
Lemma C3_counterexample :
  ~ (forall (p : PlatformClient unit) (data : monograph.MonographDataSourceModel)
            (z : option FederatedGraph) (e : ApiError),
        IsNull (monograph.Name data)
        || String.eqb (ValueString (monograph.Name data)) "" = false ->
        GetMonograph p (ValueString (monograph.Name data))
          (if String.eqb (ValueString (monograph.Namespace data)) ""
           then "default" else ValueString (monograph.Namespace data)) tt
        = ((z, Some e), tt) ->
        IsNotFoundError Fixtures.byStatus e = true ->
        exists resp' w' d,
          monograph.Read Fixtures.byStatus p
            (monograph.mkReadRequest (monograph.mkConfig data []))
            (monograph.mkReadResponse None []) (Fixtures.start tt)
          = Returns resp' w'
          /\ monograph.State resp' = None
          /\ monograph.RDiagnostics resp' = [d]
          /\ severity d = SeverityWarning
          /\ errors (monograph.RDiagnostics resp') = []).
Proof.
  intros H.
  destruct (H Fixtures.nothingThere Fixtures.testMonograph None
              Fixtures.notFound eq_refl eq_refl eq_refl)
    as (resp' & w' & d & Hrun & _ & Hd & Hsev & _).
  vm_compute in Hrun. inversion Hrun; subst. cbn in Hd.
  inversion Hd; subst. discriminate Hsev.
Qed.

(** C3, amended.  When the remote read of a federated graph ends in a
    not-found error, Read of the resource removes it from the tracked state
    and adds exactly one diagnostic, a warning, and no error.  Read of the
    monograph data source has no such branch: when its remote read ends in
    a not-found error it adds exactly one diagnostic, an error, and leaves
    the state as it was. *)
Theorem C3_Read_not_found_by_kind :
  forall (R : Type) (X : Externals) (p : PlatformClient R) (w : World R)
         (e : ApiError) (r' : R),
    IsNotFoundError X e = true ->
    (forall (data : FederatedGraphResourceModel) (ds : Diagnostics)
            (resp : ResourceResponse)
            (x : option GetFederatedGraphByNameResponse),
        HasError (RDiagnostics resp ++ ds)%list = false ->
        federated_graph.missingId data = false ->
        GetFederatedGraph p (ValueString (Name data)) (ValueString (Namespace data))
                           (remote w) = ((x, Some e), r') ->
        exists resp' d,
          federated_graph.Read X p (mkReadRequest (mkSource data ds)) resp w
          = Returns resp'
              (mkWorld r' (calls w ++ [CallGetFederatedGraph
                                         (ValueString (Name data))
                                         (ValueString (Namespace data))])%list)
          /\ State resp' = None
          /\ RDiagnostics resp' = ((RDiagnostics resp ++ ds) ++ [d])%list
          /\ severity d = SeverityWarning
          /\ errors (RDiagnostics resp') = [])
    /\
    (forall (data : monograph.MonographDataSourceModel) (ds : Diagnostics)
            (resp : monograph.ReadResponse) (namespace : string)
            (z : option FederatedGraph),
        HasError (monograph.RDiagnostics resp ++ ds)%list = false ->
        IsNull (monograph.Name data)
        || String.eqb (ValueString (monograph.Name data)) "" = false ->
        namespace = (if String.eqb (ValueString (monograph.Namespace data)) ""
                     then "default" else ValueString (monograph.Namespace data)) ->
        GetMonograph p (ValueString (monograph.Name data)) namespace (remote w)
        = ((z, Some e), r') ->
        exists resp' d,
          returned (monograph.Read X p
                      (monograph.mkReadRequest (monograph.mkConfig data ds)) resp w)
          = Some resp'
          /\ monograph.State resp' = monograph.State resp
          /\ monograph.RDiagnostics resp'
             = ((monograph.RDiagnostics resp ++ ds) ++ [d])%list
          /\ severity d = SeverityError).
Proof.
  intros R X p w e r' Hnf. split.
  - intros data ds resp x Hds Hid Hget.
    exact (Read_not_found_drops_resource
             R X p data ds resp w x e r' Hds Hid Hget Hnf).
  - intros data ds resp namespace z Hds Hname Hns Hget.
    destruct (monograph_Read_error_is_fatal
                R X p data ds resp w namespace z e r' Hds Hname Hns Hget)
      as (resp' & msg & Hrun & Hst & Hdiag & _).
    exists resp', (mkDiagnostic SeverityError ErrReadingMonograph msg).
    repeat split; assumption.
Qed.

Lemma C3_Read_not_found_witness :
  (exists resp' d,
      federated_graph.Read
        Fixtures.byStatus Fixtures.nothingThere
        (mkReadRequest (mkSource Fixtures.orders []))
        (Fixtures.tracking Fixtures.orders) (Fixtures.start tt)
      = Returns resp' (mkWorld tt [CallGetFederatedGraph "orders" "default"])
      /\ State resp' = None
      /\ RDiagnostics resp' = [d]
      /\ severity d = SeverityWarning
      /\ errors (RDiagnostics resp') = [])
  /\
  (exists resp' d,
      returned (monograph.Read
                  Fixtures.byStatus Fixtures.nothingThere
                  (monograph.mkReadRequest
                     (monograph.mkConfig Fixtures.testMonograph []))
                  (monograph.mkReadResponse None []) (Fixtures.start tt))
      = Some resp'
      /\ monograph.State resp' = None
      /\ monograph.RDiagnostics resp' = [d]
      /\ severity d = SeverityError).
Proof.
  destruct (C3_Read_not_found_by_kind
              unit Fixtures.byStatus Fixtures.nothingThere (Fixtures.start tt)
              Fixtures.notFound tt eq_refl) as [Hg Hm].
  split.
  - apply (Hg Fixtures.orders [] (Fixtures.tracking Fixtures.orders) None);
      reflexivity.
  - apply (Hm Fixtures.testMonograph [] (monograph.mkReadResponse None [])
              "default" None);
      reflexivity.
Defined.

(** C5. A hard failure of the remote update, and any failure of the remote
    delete (soft or not: Delete does not look at the kind of the error),
    ends the invocation with one more diagnostic, an error, and with the
    tracked state as it was before. *)
Theorem C5_hard_failure_keeps_state :
  forall (R : Type) (X : Externals) (p : PlatformClient R)
         (data : FederatedGraphResourceModel) (ds : Diagnostics)
         (resp : ResourceResponse) (w : World R) (e : ApiError) (r' : R),
    HasError (RDiagnostics resp ++ ds)%list = false ->
    federated_graph.missingId data = false ->
    (forall (labelMatchers : list string) (x : option UpdateFederatedGraphResponse),
        LabelMatcher.validate (map ValueString (Elements (LabelMatchers data)))
        = inl labelMatchers ->
        UpdateFederatedGraph p (federated_graph.admissionWebhookSecret data)
                              (federated_graph.apiGraph data labelMatchers)
                              (remote w) = ((x, Some e), r') ->
        IsSubgraphCompositionFailedError X e = false ->
        exists resp' w',
          federated_graph.Update X p (mkUpdateRequest (mkSource data ds)) resp w
          = Returns resp' w'
          /\ State resp' = State resp
          /\ RDiagnostics resp'
             = ((RDiagnostics resp ++ ds)
                  ++ [mkDiagnostic SeverityError ErrUpdatingGraph
                                   (ApiError_Error X e)])%list)
    /\
    (DeleteFederatedGraph p (ValueString (Name data)) (ValueString (Namespace data))
                           (remote w) = (Some e, r') ->
     exists resp' w' msg,
       federated_graph.Delete X p (mkDeleteRequest (mkSource data ds)) resp w
       = Returns resp' w'
       /\ State resp' = State resp
       /\ RDiagnostics resp'
          = ((RDiagnostics resp ++ ds)
               ++ [mkDiagnostic SeverityError ErrDeletingGraph msg])%list).
Proof.
  intros R X p data ds resp w e r' Hds Hid. split.
  - intros lm x Hval Hupd Hhard.
    eexists. eexists. run. rewrite Hds, Hid.
    rewrite (ConvertAndValidateLabelMatchers_valid _ _ _ Hval).
    rewrite Hupd. cbn. rewrite Hhard. cbn.
    repeat split.
  - intros Hdel.
    eexists. eexists. eexists. run. rewrite Hds, Hid, Hdel. cbn.
    repeat split.
Qed.

Lemma C5_hard_failure_witness :
  (exists resp' w',
      federated_graph.Update
        Fixtures.byStatus
        (Fixtures.scripted
           (Fixtures.with_onDelete (Some Fixtures.general)
              (Fixtures.with_onUpdate (None, Some Fixtures.general) Fixtures.happy)))
        (mkUpdateRequest (mkSource Fixtures.orders []))
        (Fixtures.tracking Fixtures.orders) (Fixtures.start tt)
      = Returns resp' w'
      /\ State resp' = Some Fixtures.orders
      /\ RDiagnostics resp'
         = [mkDiagnostic SeverityError ErrUpdatingGraph
                         "PlatformClient: general error"])
  /\
  (exists resp' w' msg,
      federated_graph.Delete
        Fixtures.byStatus
        (Fixtures.scripted
           (Fixtures.with_onDelete (Some Fixtures.general)
              (Fixtures.with_onUpdate (None, Some Fixtures.general) Fixtures.happy)))
        (mkDeleteRequest (mkSource Fixtures.orders []))
        (Fixtures.tracking Fixtures.orders) (Fixtures.start tt)
      = Returns resp' w'
      /\ State resp' = Some Fixtures.orders
      /\ RDiagnostics resp' = [mkDiagnostic SeverityError ErrDeletingGraph msg]).
Proof.
  destruct (C5_hard_failure_keeps_state
              unit Fixtures.byStatus
              (Fixtures.scripted
                 (Fixtures.with_onDelete (Some Fixtures.general)
                    (Fixtures.with_onUpdate (None, Some Fixtures.general)
                                            Fixtures.happy)))
              Fixtures.orders [] (Fixtures.tracking Fixtures.orders)
              (Fixtures.start tt) Fixtures.general tt
              eq_refl eq_refl) as [Hu Hd].
  split.
  - apply (Hu ["team=payments"; "env=prod"] None); reflexivity.
  - apply Hd. reflexivity.
Defined.

(** Read writes the three operator-declared fields that the remote read
    does not own only as it found them: whenever Read returns, the tracked
    state is the one it was given, or removed, or a model whose readme,
    admission webhook URL and admission webhook secret are those of the
    current state. *)
Lemma Read_frame :
  forall (R : Type) (X : Externals) (p : PlatformClient R)
         (data : FederatedGraphResourceModel) (ds : Diagnostics)
         (resp resp' : ResourceResponse) (w w' : World R),
    federated_graph.Read X p (mkReadRequest (mkSource data ds)) resp w
    = Returns resp' w' ->
    State resp' = State resp
    \/ State resp' = None
    \/ exists d', State resp' = Some d'
                  /\ Readme d' = Readme data
                  /\ AdmissionWebhookUrl d' = AdmissionWebhookUrl data
                  /\ AdmissionWebhookSecret d' = AdmissionWebhookSecret data.
Proof.
  intros R X p data ds resp resp' w w'. run.
  destruct (HasError (RDiagnostics resp ++ ds)%list);
    [intros H; inversion H; subst; now left|].
  destruct (federated_graph.missingId data);
    [intros H; inversion H; subst; now left|].
  destruct (GetFederatedGraph p _ _ (remote w)) as [[x [e|]] r']; cbn.
  - destruct (IsNotFoundError X e); intros H; inversion H; subst; cbn; auto.
  - destruct x as [[[g|]]|]; cbn; intros H; inversion H; subst; cbn.
    right. right. eexists. repeat split.
Qed.

(** C6. A successful Read stores a model whose identifier, name, namespace,
    routing URL and label matchers are those of the response, and whose
    readme, admission webhook URL and admission webhook secret are those of
    the state it was given; nothing of the response reaches the secret. *)
Theorem C6_Read_overwrites_remote_owned_fields_only :
  forall (R : Type) (X : Externals) (p : PlatformClient R)
         (data : FederatedGraphResourceModel) (ds : Diagnostics)
         (resp : ResourceResponse) (w : World R) (g : FederatedGraph) (r' : R),
    HasError (RDiagnostics resp ++ ds)%list = false ->
    federated_graph.missingId data = false ->
    GetFederatedGraph p (ValueString (Name data)) (ValueString (Namespace data))
                       (remote w)
    = ((Some (mkGetResponse (Some g)), None), r') ->
    exists resp' w' d',
      federated_graph.Read X p (mkReadRequest (mkSource data ds)) resp w
      = Returns resp' w'
      /\ State resp' = Some d'
      /\ RDiagnostics resp' = (RDiagnostics resp ++ ds)%list
      /\ Id d' = StringValue (FG_Id g)
      /\ Name d' = StringValue (FG_Name g)
      /\ Namespace d' = StringValue (FG_Namespace g)
      /\ RoutingURL d' = StringValue (FG_RoutingURL g)
      /\ LabelMatchers d' = ListValue (map StringValue (FG_LabelMatchers g))
      /\ Readme d' = Readme data
      /\ AdmissionWebhookUrl d' = AdmissionWebhookUrl data
      /\ AdmissionWebhookSecret d' = AdmissionWebhookSecret data.
Proof.
  intros R X p data ds resp w g r' Hds Hid Hget.
  eexists. eexists. eexists. run. rewrite Hds, Hid, Hget. cbn.
  repeat split.
Qed.

Lemma C6_Read_witness :
  exists resp' w' d',
    federated_graph.Read
      Fixtures.byStatus (Fixtures.scripted Fixtures.happy)
      (mkReadRequest
         (mkSource (set_RoutingURL (StringValue "http://old") Fixtures.orders) []))
      (Fixtures.tracking Fixtures.orders) (Fixtures.start tt)
    = Returns resp' w'
    /\ State resp' = Some d'
    /\ RDiagnostics resp' = []
    /\ Id d' = StringValue "fg-1"
    /\ Name d' = StringValue "orders"
    /\ Namespace d' = StringValue "default"
    /\ RoutingURL d' = StringValue "http://svc/routing"
    /\ LabelMatchers d' = ListValue [StringValue "team=payments"; StringValue "env=prod"]
    /\ Readme d' = StringValue "docs"
    /\ AdmissionWebhookUrl d' = StringNull
    /\ AdmissionWebhookSecret d' = StringValue "s3cret".
Proof.
  apply (C6_Read_overwrites_remote_owned_fields_only
           unit Fixtures.byStatus (Fixtures.scripted Fixtures.happy)
           (set_RoutingURL (StringValue "http://old") Fixtures.orders) []
           (Fixtures.tracking Fixtures.orders) (Fixtures.start tt)
           Fixtures.ordersGraph tt);
    reflexivity.
Defined.

(** C2. After the identifier check and the validation, and unless the
    remote update fails hard: if the response carries composition errors,
    Update adds a warning as its last diagnostic and leaves the tracked
    state as it was; if it carries none, Update stores the plan as it was
    submitted.  Either way the one remote call is the update: nothing is
    read back. *)
Theorem C2_Update_composition_errors_or_plan :
  forall (R : Type) (X : Externals) (p : PlatformClient R)
         (data : FederatedGraphResourceModel) (ds : Diagnostics)
         (resp : ResourceResponse) (w : World R)
         (labelMatchers : list string)
         (u : UpdateFederatedGraphResponse) (apiError : option ApiError) (r' : R),
    HasError (RDiagnostics resp ++ ds)%list = false ->
    federated_graph.missingId data = false ->
    LabelMatcher.validate (map ValueString (Elements (LabelMatchers data)))
    = inl labelMatchers ->
    UpdateFederatedGraph p (federated_graph.admissionWebhookSecret data)
                          (federated_graph.apiGraph data labelMatchers)
                          (remote w) = ((Some u, apiError), r') ->
    (forall e, apiError = Some e -> IsSubgraphCompositionFailedError X e = true) ->
    exists resp',
      federated_graph.Update X p (mkUpdateRequest (mkSource data ds)) resp w
      = Returns resp'
          (mkWorld r' (calls w ++ [CallUpdateFederatedGraph
                                     (federated_graph.admissionWebhookSecret data)
                                     (federated_graph.apiGraph data labelMatchers)])%list)
      /\ HasError (RDiagnostics resp') = false
      /\ (CompositionErrors u <> [] ->
          State resp' = State resp
          /\ exists rest msg,
              RDiagnostics resp'
              = (rest ++ [mkDiagnostic SeverityWarning ErrCompositionError msg])%list)
      /\ (CompositionErrors u = [] -> State resp' = Some data).
Proof.
  intros R X p data ds resp w lm u apiError r' Hds Hid Hval Hupd Hsoft.
  run. rewrite Hds, Hid.
  rewrite (ConvertAndValidateLabelMatchers_valid _ _ _ Hval).
  rewrite Hupd. cbn.
  assert (Hw : forall s m,
             HasError ((RDiagnostics resp ++ ds)
                         ++ [mkDiagnostic SeverityWarning s m])%list = false).
  { intros s m. rewrite HasError_app, Hds. reflexivity. }
  assert (Hw2 : forall s m s' m',
             HasError (((RDiagnostics resp ++ ds)
                          ++ [mkDiagnostic SeverityWarning s m])
                         ++ [mkDiagnostic SeverityWarning s' m'])%list = false).
  { intros s m s' m'. rewrite HasError_app, Hw. reflexivity. }
  destruct apiError as [e|]; [rewrite (Hsoft e eq_refl)|]; cbn;
    destruct (CompositionErrors u) as [|c cs] eqn:Hce; cbn;
    eexists; (split; [reflexivity|]); cbn;
    (split; [first [apply Hw2 | apply Hw | exact Hds]|]);
    (split; [intros Hne|intros He]);
    try congruence; try reflexivity;
    (split; [reflexivity|]); eexists; eexists; reflexivity.
Qed.

Lemma C2_Update_witness :
  exists resp',
    federated_graph.Update
      Fixtures.byStatus
      (Fixtures.scripted
         (Fixtures.with_onUpdate (Some Fixtures.clash, None) Fixtures.happy))
      (mkUpdateRequest
         (mkSource (set_RoutingURL (StringValue "http://new") Fixtures.orders) []))
      (Fixtures.tracking Fixtures.orders) (Fixtures.start tt)
    = Returns resp'
        (mkWorld tt
           [CallUpdateFederatedGraph
              (Some "s3cret")
              (mkFederatedGraph "" "orders" "default" "http://new"
                                ["team=payments"; "env=prod"] (Some "docs") None)])
    /\ HasError (RDiagnostics resp') = false
    /\ State resp' = Some Fixtures.orders
    /\ exists rest msg,
        RDiagnostics resp'
        = (rest ++ [mkDiagnostic SeverityWarning ErrCompositionError msg])%list.
Proof.
  destruct (C2_Update_composition_errors_or_plan
              unit Fixtures.byStatus
              (Fixtures.scripted
                 (Fixtures.with_onUpdate (Some Fixtures.clash, None) Fixtures.happy))
              (set_RoutingURL (StringValue "http://new") Fixtures.orders) []
              (Fixtures.tracking Fixtures.orders) (Fixtures.start tt)
              ["team=payments"; "env=prod"] Fixtures.clash None tt
              eq_refl eq_refl eq_refl eq_refl
              (fun e (He : None = Some e) =>
                 match He in (_ = o)
                       return (match o with
                               | Some e' =>
                                   IsSubgraphCompositionFailedError
                                     Fixtures.byStatus e' = true
                               | None => True
                               end)
                 with eq_refl => I end))
    as (resp' & Hrun & Hne & Hwarn & _).
  exists resp'. split; [exact Hrun|]. split; [exact Hne|].
  apply Hwarn. cbn. discriminate.
Defined.

(** C7. Label matchers survive validation and an update followed by a read.
    A list of well-formed entries passes [validate] unchanged.  Update, on
    every path that is not a hard failure, makes one remote call, which
    carries these entries in this order; it stores the plan when the
    response reports no composition error and leaves the state alone when
    it does.  The Read that follows, from whatever current state with the
    same name and namespace, makes one read call, and when the remote
    answers with a graph that carries the label matchers it was sent, Read
    stores the label matchers of that answer: the same entries in the same
    order. *)
Theorem C7_label_matchers_round_trip :
  forall (R : Type) (X : Externals) (p : PlatformClient R)
         (l : list string)
         (data : FederatedGraphResourceModel) (ds : Diagnostics)
         (resp : ResourceResponse) (w : World R)
         (u : UpdateFederatedGraphResponse) (apiError : option ApiError) (r1 : R)
         (cur : FederatedGraphResourceModel) (ds' : Diagnostics)
         (resp_r : ResourceResponse)
         (g : FederatedGraph) (r2 : R),
    forallb LabelMatcher.valid l = true ->
    LabelMatchers data = ListValue (map StringValue l) ->
    HasError (RDiagnostics resp ++ ds)%list = false ->
    federated_graph.missingId data = false ->
    UpdateFederatedGraph p (federated_graph.admissionWebhookSecret data)
                         (federated_graph.apiGraph data l) (remote w)
    = ((Some u, apiError), r1) ->
    (forall e, apiError = Some e -> IsSubgraphCompositionFailedError X e = true) ->
    HasError (RDiagnostics resp_r ++ ds')%list = false ->
    federated_graph.missingId cur = false ->
    ValueString (Name cur) = ValueString (Name data) ->
    ValueString (Namespace cur) = ValueString (Namespace data) ->
    GetFederatedGraph p (ValueString (Name data)) (ValueString (Namespace data)) r1
    = ((Some (mkGetResponse (Some g)), None), r2) ->
    FG_LabelMatchers g = FG_LabelMatchers (federated_graph.apiGraph data l) ->
    LabelMatcher.validate l = inl l
    /\ FG_LabelMatchers (federated_graph.apiGraph data l) = l
    /\ exists resp1 w1 resp2 d2,
        federated_graph.Update X p (mkUpdateRequest (mkSource data ds)) resp w
        = Returns resp1 w1
        /\ w1 = mkWorld r1
                  (calls w ++ [CallUpdateFederatedGraph
                                 (federated_graph.admissionWebhookSecret data)
                                 (federated_graph.apiGraph data l)])%list
        /\ (CompositionErrors u = [] -> State resp1 = Some data)
        /\ (CompositionErrors u <> [] -> State resp1 = State resp)
        /\ federated_graph.Read X p (mkReadRequest (mkSource cur ds')) resp_r w1
           = Returns resp2
               (mkWorld r2
                  (calls w1 ++ [CallGetFederatedGraph
                                  (ValueString (Name data))
                                  (ValueString (Namespace data))])%list)
        /\ State resp2 = Some d2
        /\ LabelMatchers d2 = ListValue (map StringValue (FG_LabelMatchers g))
        /\ map ValueString (Elements (LabelMatchers d2)) = l.
Proof.
  intros R X p l data ds resp w u apiError r1 cur ds' resp_r g r2
         Hl Hlm Hds Hid Hupd Hsoft Hds' Hid' Hname Hns Hget Hsame.
  pose proof (validate_valid l Hl) as Hval.
  split; [exact Hval|]. split; [reflexivity|].
  assert (Hval' : LabelMatcher.validate
                    (map ValueString (Elements (LabelMatchers data))) = inl l).
  { rewrite Hlm. cbn. now rewrite map_ValueString_StringValue. }
  assert (Hupdate :
            exists resp1,
              federated_graph.Update X p (mkUpdateRequest (mkSource data ds)) resp w
              = Returns resp1
                  (mkWorld r1
                     (calls w ++ [CallUpdateFederatedGraph
                                    (federated_graph.admissionWebhookSecret data)
                                    (federated_graph.apiGraph data l)])%list)
              /\ (CompositionErrors u = [] -> State resp1 = Some data)
              /\ (CompositionErrors u <> [] -> State resp1 = State resp)).
  { run. rewrite Hds, Hid.
    rewrite (ConvertAndValidateLabelMatchers_valid _ _ _ Hval').
    rewrite Hupd. cbn.
    destruct apiError as [e|]; [rewrite (Hsoft e eq_refl)|]; cbn;
      destruct (CompositionErrors u) as [|c cs]; cbn;
      eexists; (split; [reflexivity|]); cbn;
      split; intros H; congruence. }
  destruct Hupdate as (resp1 & Hrun & Hset & Hkeep).
  exists resp1. eexists. eexists. eexists.
  split; [exact Hrun|]. split; [reflexivity|].
  split; [exact Hset|]. split; [exact Hkeep|].
  split.
  { run. rewrite Hds', Hid', Hname, Hns. cbn. rewrite Hget. cbn. reflexivity. }
  split; [reflexivity|].
  split; [reflexivity|].
  cbn. rewrite Hsame. cbn. apply map_ValueString_StringValue.
Qed.

Lemma C7_label_matchers_witness :
  LabelMatcher.validate ["team=payments"; "env=prod"]
  = inl ["team=payments"; "env=prod"]
  /\ FG_LabelMatchers
       (federated_graph.apiGraph Fixtures.orders ["team=payments"; "env=prod"])
     = ["team=payments"; "env=prod"]
  /\ exists resp1 w1 resp2 d2,
      federated_graph.Update Fixtures.byStatus degradedStore
        (mkUpdateRequest (mkSource Fixtures.orders []))
        (Fixtures.tracking (set_LabelMatchers (ListValue []) Fixtures.orders))
        (Fixtures.start [])
      = Returns resp1 w1
      /\ w1 = mkWorld
                [federated_graph.apiGraph Fixtures.orders
                                          ["team=payments"; "env=prod"]]
                [CallUpdateFederatedGraph
                   (federated_graph.admissionWebhookSecret Fixtures.orders)
                   (federated_graph.apiGraph Fixtures.orders
                                             ["team=payments"; "env=prod"])]
      /\ State resp1 = Some (set_LabelMatchers (ListValue []) Fixtures.orders)
      /\ federated_graph.Read Fixtures.byStatus degradedStore
           (mkReadRequest
              (mkSource (set_LabelMatchers (ListValue []) Fixtures.orders) []))
           (Fixtures.tracking (set_LabelMatchers (ListValue []) Fixtures.orders))
           w1
         = Returns resp2
             (mkWorld
                [federated_graph.apiGraph Fixtures.orders
                                          ["team=payments"; "env=prod"]]
                (calls w1 ++ [CallGetFederatedGraph "orders" "default"])%list)
      /\ State resp2 = Some d2
      /\ LabelMatchers d2
         = ListValue [StringValue "team=payments"; StringValue "env=prod"]
      /\ map ValueString (Elements (LabelMatchers d2))
         = ["team=payments"; "env=prod"].
Proof.
  destruct (C7_label_matchers_round_trip
              Fixtures.Store Fixtures.byStatus degradedStore
              ["team=payments"; "env=prod"]
              Fixtures.orders []
              (Fixtures.tracking (set_LabelMatchers (ListValue []) Fixtures.orders))
              (Fixtures.start [])
              Fixtures.clash (Some Fixtures.compositionFailed)
              [federated_graph.apiGraph Fixtures.orders ["team=payments"; "env=prod"]]
              (set_LabelMatchers (ListValue []) Fixtures.orders) []
              (Fixtures.tracking (set_LabelMatchers (ListValue []) Fixtures.orders))
              (federated_graph.apiGraph Fixtures.orders ["team=payments"; "env=prod"])
              [federated_graph.apiGraph Fixtures.orders ["team=payments"; "env=prod"]]
              eq_refl eq_refl eq_refl eq_refl eq_refl
              (fun e (He : Some Fixtures.compositionFailed = Some e) =>
                 match He in (_ = o)
                       return (match o with
                               | Some e' =>
                                   IsSubgraphCompositionFailedError
                                     Fixtures.byStatus e' = true
                               | None => True
                               end)
                 with eq_refl => eq_refl end)
              eq_refl eq_refl eq_refl eq_refl eq_refl eq_refl)
    as (Hval & Hsent & resp1 & w1 & resp2 & d2
        & Hupd & Hw1 & _ & Hkeep & Hread & Hst & Hlm & Hround).
  split; [exact Hval|]. split; [exact Hsent|].
  exists resp1, w1, resp2, d2.
  split; [exact Hupd|]. split; [exact Hw1|].
  split; [apply Hkeep; cbn; discriminate|].
  split; [exact Hread|]. split; [exact Hst|].
  split; [exact Hlm|exact Hround].
Defined.

(** C1, as stated, fails: after a create that ended in a composition
    failure the read is issued, but when that read fails nothing is stored,
    so the state is not a managed resource with a non-empty identifier. *)
Lemma C1_counterexample :
  ~ (forall (p : PlatformClient unit) (data : FederatedGraphResourceModel)
            (labelMatchers : list string)
            (x : option CreateFederatedGraphResponse) (e : ApiError),
        LabelMatcher.validate (map ValueString (Elements (LabelMatchers data)))
        = inl labelMatchers ->
        CreateFederatedGraph p (federated_graph.admissionWebhookSecret data)
                              (federated_graph.apiGraph data labelMatchers) tt
        = ((x, Some e), tt) ->
        IsSubgraphCompositionFailedError Fixtures.byStatus e = true ->
        exists resp' w' d,
          federated_graph.Create Fixtures.byStatus p
            (mkCreateRequest (mkSource data [])) Fixtures.fresh (Fixtures.start tt)
          = Returns resp' w'
          /\ In (CallGetFederatedGraph (ValueString (Name data))
                                       (ValueString (Namespace data))) (calls w')
          /\ State resp' = Some d
          /\ ValueString (Id d) <> "").
Proof.
  intros H.
  destruct (H Fixtures.softThenFail Fixtures.ordersPlan
              ["team=payments"; "env=prod"] None Fixtures.compositionFailed
              eq_refl eq_refl eq_refl)
    as (resp' & w' & d & Hrun & _ & Hst & _).
  vm_compute in Hrun. inversion Hrun; subst. discriminate Hst.
Qed.

(** C1, amended.  After a create that ended in a composition failure,
    Create issues the read by (name, namespace) right after the create call.
    When that read succeeds, Create stores the plan with identifier, name,
    namespace and routing URL taken from the response (so the identifier is
    non-empty whenever the one read is), and the composition failure is the
    one diagnostic added, a warning.  When that read fails hard, Create
    reports an error and the tracked state is as it was. *)
Theorem C1_Create_composition_failed_still_reads :
  forall (R : Type) (X : Externals) (p : PlatformClient R)
         (data : FederatedGraphResourceModel) (ds : Diagnostics)
         (resp : ResourceResponse) (w : World R)
         (labelMatchers : list string)
         (x : option CreateFederatedGraphResponse) (e : ApiError) (r1 : R)
         (y : option GetFederatedGraphByNameResponse * option ApiError) (r2 : R),
    HasError (RDiagnostics resp ++ ds)%list = false ->
    LabelMatcher.validate (map ValueString (Elements (LabelMatchers data)))
    = inl labelMatchers ->
    CreateFederatedGraph p (federated_graph.admissionWebhookSecret data)
                          (federated_graph.apiGraph data labelMatchers) (remote w)
    = ((x, Some e), r1) ->
    IsSubgraphCompositionFailedError X e = true ->
    GetFederatedGraph p (ValueString (Name data)) (ValueString (Namespace data)) r1
    = (y, r2) ->
    calls (world_of (federated_graph.Create X p (mkCreateRequest (mkSource data ds))
                                            resp w))
    = (calls w
         ++ [CallCreateFederatedGraph
               (federated_graph.admissionWebhookSecret data)
               (federated_graph.apiGraph data labelMatchers);
             CallGetFederatedGraph (ValueString (Name data))
                                   (ValueString (Namespace data))])%list
    /\ (forall rsp,
          y = (Some rsp, None) ->
          exists resp' d,
            returned (federated_graph.Create
                        X p (mkCreateRequest (mkSource data ds)) resp w)
            = Some resp'
            /\ State resp' = Some d
            /\ d = set_RoutingURL (StringValue (GetRoutingURL (Graph rsp)))
                     (set_Namespace (StringValue (GetNamespace (Graph rsp)))
                        (set_Name (StringValue (GetName (Graph rsp)))
                           (set_Id (StringValue (GetId (Graph rsp))) data)))
            /\ (GetId (Graph rsp) <> "" -> ValueString (Id d) <> "")
            /\ RDiagnostics resp'
               = ((RDiagnostics resp ++ ds)
                    ++ [mkDiagnostic SeverityWarning ErrCompositionError
                                     (ApiError_Error X e)])%list)
    /\ (forall z e2,
          y = (z, Some e2) ->
          IsSubgraphCompositionFailedError X e2 = false ->
          exists resp',
            returned (federated_graph.Create
                        X p (mkCreateRequest (mkSource data ds)) resp w)
            = Some resp'
            /\ State resp' = State resp
            /\ HasError (RDiagnostics resp') = true).
Proof.
  intros R X p data ds resp w lm x e r1 y r2 Hds Hval Hcreate Hsoft Hget.
  run. rewrite Hds. cbn.
  rewrite (ConvertAndValidateLabelMatchers_valid _ _ _ Hval).
  rewrite Hcreate. cbn. rewrite Hsoft. cbn. rewrite Hget. cbn.
  split; [|split].
  - destruct y as [[rsp|] [e2|]]; cbn;
      try (destruct (IsSubgraphCompositionFailedError X e2); cbn);
      rewrite <- ?app_assoc; reflexivity.
  - intros rsp ->. cbn. eexists. eexists.
    split; [reflexivity|]. cbn. repeat split. intros Hne. exact Hne.
  - intros z e2 -> Hhard. cbn. rewrite Hhard. cbn. eexists.
    split; [reflexivity|]. cbn. split; [reflexivity|].
    apply HasError_snoc_error.
Qed.

Lemma C1_Create_composition_failed_witness :
  calls (world_of (federated_graph.Create
                     Fixtures.byStatus Fixtures.softThenRead
                     (mkCreateRequest (mkSource Fixtures.ordersPlan []))
                     Fixtures.fresh (Fixtures.start tt)))
  = [CallCreateFederatedGraph
       (federated_graph.admissionWebhookSecret Fixtures.ordersPlan)
       (federated_graph.apiGraph Fixtures.ordersPlan ["team=payments"; "env=prod"]);
     CallGetFederatedGraph "orders" "default"]
  /\ exists resp' d,
      returned (federated_graph.Create
                  Fixtures.byStatus Fixtures.softThenRead
                  (mkCreateRequest (mkSource Fixtures.ordersPlan []))
                  Fixtures.fresh (Fixtures.start tt))
      = Some resp'
      /\ State resp' = Some d
      /\ Id d = StringValue "fg-1"
      /\ ValueString (Id d) <> ""
      /\ RDiagnostics resp'
         = [mkDiagnostic SeverityWarning ErrCompositionError
                         "CreateFederatedGraph: subgraph composition failed"].
Proof.
  destruct (C1_Create_composition_failed_still_reads
              unit Fixtures.byStatus Fixtures.softThenRead
              Fixtures.ordersPlan [] Fixtures.fresh (Fixtures.start tt)
              ["team=payments"; "env=prod"] None Fixtures.compositionFailed tt
              (Some (mkGetResponse (Some Fixtures.ordersGraph)), None) tt
              eq_refl eq_refl eq_refl eq_refl eq_refl)
    as (Hcalls & Hok & _).
  split; [exact Hcalls|].
  destruct (Hok (mkGetResponse (Some Fixtures.ordersGraph)) eq_refl)
    as (resp' & d & Hrun & Hst & Hd & Hid & Hdiag).
  exists resp', d. repeat split; try assumption.
  - rewrite Hd. reflexivity.
  - apply Hid. cbn. discriminate.
Defined.

(** What [createFederatedGraph] hands back when the read it issues ends in
    an error: a nil response and that error, whatever its kind. *)
Lemma createFederatedGraph_read_error :
  forall (R : Type) (X : Externals) (p : PlatformClient R)
         (data : FederatedGraphResourceModel) (resp : ResourceResponse)
         (w : World R) (labelMatchers : list string)
         (x : option CreateFederatedGraphResponse) (r1 : R)
         (z : option GetFederatedGraphByNameResponse) (e : ApiError) (r2 : R),
    LabelMatcher.validate (map ValueString (Elements (LabelMatchers data)))
    = inl labelMatchers ->
    CreateFederatedGraph p (federated_graph.admissionWebhookSecret data)
                          (federated_graph.apiGraph data labelMatchers) (remote w)
    = ((x, None), r1) ->
    GetFederatedGraph p (ValueString (Name data)) (ValueString (Namespace data)) r1
    = ((z, Some e), r2) ->
    returned (federated_graph.createFederatedGraph X p data resp w)
    = Some (resp, (None, Some e)).
Proof.
  intros R X p data resp w lm x r1 z e r2 Hval Hcreate Hget.
  run. rewrite (ConvertAndValidateLabelMatchers_valid _ _ _ Hval).
  rewrite Hcreate. cbn. rewrite Hget. reflexivity.
Qed.

(** When the create succeeds and the read that follows ends in an error of
    the composition-failed kind, Create takes the warning branch and then
    reads [response.Graph] through the nil response. *)
Lemma Create_soft_read_error_panics :
  forall (R : Type) (X : Externals) (p : PlatformClient R)
         (data : FederatedGraphResourceModel) (ds : Diagnostics)
         (resp : ResourceResponse) (w : World R) (labelMatchers : list string)
         (x : option CreateFederatedGraphResponse) (r1 : R)
         (z : option GetFederatedGraphByNameResponse) (e : ApiError) (r2 : R),
    HasError (RDiagnostics resp ++ ds)%list = false ->
    LabelMatcher.validate (map ValueString (Elements (LabelMatchers data)))
    = inl labelMatchers ->
    CreateFederatedGraph p (federated_graph.admissionWebhookSecret data)
                          (federated_graph.apiGraph data labelMatchers) (remote w)
    = ((x, None), r1) ->
    GetFederatedGraph p (ValueString (Name data)) (ValueString (Namespace data)) r1
    = ((z, Some e), r2) ->
    IsSubgraphCompositionFailedError X e = true ->
    returned (federated_graph.Create X p (mkCreateRequest (mkSource data ds)) resp w)
    = None.
Proof.
  intros R X p data ds resp w lm x r1 z e r2 Hds Hval Hcreate Hget Hsoft.
  run. rewrite Hds. cbn.
  rewrite (ConvertAndValidateLabelMatchers_valid _ _ _ Hval).
  rewrite Hcreate. cbn. rewrite Hget. cbn. rewrite Hsoft. reflexivity.
Qed.

(** C9 does not hold of the code.  With a create that succeeds and a read
    answered with the composition-failed status, [createFederatedGraph]
    returns a nil response together with an error that is classified as
    subgraph-composition-failed, and Create goes on to dereference the nil
    response: the run ends in a panic after the two remote calls. *)
Theorem C9_Create_dereferences_nil_response :
  returned (federated_graph.createFederatedGraph
              Fixtures.byStatus Fixtures.softRead Fixtures.ordersPlan
              Fixtures.fresh (Fixtures.start tt))
  = Some (Fixtures.fresh, (None, Some Fixtures.compositionFailedOnRead))
  /\ IsSubgraphCompositionFailedError Fixtures.byStatus
       Fixtures.compositionFailedOnRead = true
  /\ federated_graph.Create
       Fixtures.byStatus Fixtures.softRead
       (mkCreateRequest (mkSource Fixtures.ordersPlan []))
       Fixtures.fresh (Fixtures.start tt)
     = Panics
         (mkWorld tt
            [CallCreateFederatedGraph
               (Some "s3cret")
               (mkFederatedGraph "" "orders" "default" "http://svc/routing"
                                 ["team=payments"; "env=prod"] (Some "docs") None);
             CallGetFederatedGraph "orders" "default"]).
Proof. repeat split. Qed.

(* ------------------------------------------------------------------ *)
(** * Further properties *)

(** ** Package api: every path of the token calls *)

(** X1. [CreateToken] never returns a token next to an error, and it
    returns without error exactly when the transport succeeded, the message
    is there and its status is OK; the token is then the one of the
    message. *)
Theorem X1_CreateToken_token_or_error :
  forall (R : Type) (p : PlatformClient R)
         (name graphName namespace : string) (w : World R),
    (forall tok err,
        returned (api.CreateToken p name graphName namespace w)
        = Some (tok, Some err) -> tok = "")
    /\
    (forall tok,
        returned (api.CreateToken p name graphName namespace w) = Some (tok, None)
        <-> exists msg r r',
            Client_CreateFederatedGraphToken
              p (mkCreateTokenRequest graphName namespace name) (remote w)
            = (RpcResponse (Some msg), r')
            /\ CT_Response msg = Some r
            /\ Code r = EnumStatusCode_OK
            /\ tok = Token msg).
Proof.
  intros R p name graphName namespace w. split.
  - intros tok err. run.
    destruct (Client_CreateFederatedGraphToken p _ (remote w))
      as [[e|[msg|]] r']; cbn; try (intros H; now inversion H).
    destruct (CT_Response msg) as [r|]; cbn; [|discriminate].
    destruct (is_OK (Code r)); cbn; intros H; now inversion H.
  - intros tok. run.
    destruct (Client_CreateFederatedGraphToken p _ (remote w))
      as [[e|[msg|]] r']; cbn.
    + split; [discriminate|]. intros (msg & r & r0 & H & _). discriminate H.
    + destruct (CT_Response msg) as [r|] eqn:Hr; cbn.
      * destruct (Code r) eqn:Hc; cbn; split;
          try discriminate;
          try (intros (msg' & r1 & r0 & H & Hr' & Hc' & _);
               inversion H; subst; rewrite Hr in Hr'; inversion Hr'; subst;
               rewrite Hc in Hc'; discriminate Hc').
        -- intros H. inversion H; subst. exists msg, r, r'. now repeat split.
        -- intros (msg' & r1 & r0 & H & _ & _ & ->). now inversion H.
      * split; [discriminate|].
        intros (msg' & r1 & r0 & H & Hr' & _).
        inversion H; subst. rewrite Hr in Hr'. discriminate Hr'.
    + split; [discriminate|]. intros (msg & r & r0 & H & _). discriminate H.
Qed.

Lemma X1_CreateToken_witness :
  "" = ""
  /\ exists msg r r',
      Client_CreateFederatedGraphToken
        (Fixtures.scripted Fixtures.happy)
        (mkCreateTokenRequest "orders" "default" "ci") tt
      = (RpcResponse (Some msg), r')
      /\ CT_Response msg = Some r
      /\ Code r = EnumStatusCode_OK
      /\ "tok" = Token msg.
Proof.
  destruct (X1_CreateToken_token_or_error
              unit Fixtures.nilMessages "ci" "orders" "default"
              (Fixtures.start tt)) as [He _].
  destruct (X1_CreateToken_token_or_error
              unit (Fixtures.scripted Fixtures.happy) "ci" "orders" "default"
              (Fixtures.start tt)) as [_ Hok].
  split.
  - apply (He "" "failed to create token, the server response is nil").
    reflexivity.
  - apply (proj1 (Hok "tok")). reflexivity.
Defined.

(** X2. Whatever the answer, [CreateToken] issues exactly one remote call:
    the request carries the graph name, the namespace and the token name in
    their fields, and the remote is left as that one call left it. *)
Theorem X2_CreateToken_one_call :
  forall (R : Type) (p : PlatformClient R)
         (name graphName namespace : string) (w : World R),
    calls (world_of (api.CreateToken p name graphName namespace w))
    = (calls w ++ [CallCreateFederatedGraphToken
                     {| CT_GraphName := graphName;
                        CT_Namespace := namespace;
                        CT_TokenName := name |}])%list
    /\ remote (world_of (api.CreateToken p name graphName namespace w))
       = snd (Client_CreateFederatedGraphToken
                p (mkCreateTokenRequest graphName namespace name) (remote w)).
Proof.
  intros R p name graphName namespace w. run.
  destruct (Client_CreateFederatedGraphToken p _ (remote w))
    as [[e|[msg|]] r']; cbn; try (split; reflexivity).
  destruct (CT_Response msg) as [r|]; cbn; [|split; reflexivity].
  destruct (is_OK (Code r)); cbn; split; reflexivity.
Qed.

(** X3. A transport error reaches the caller of [CreateToken] as it is,
    while [DeleteToken] wraps it: the text returned is the transport error
    behind the words "failed to delete token: ". *)
Theorem X3_transport_error :
  forall (R : Type) (X : Externals) (p : PlatformClient R)
         (name graphName namespace : string) (w : World R)
         (err : error) (r' : R),
    (Client_CreateFederatedGraphToken
       p (mkCreateTokenRequest graphName namespace name) (remote w)
     = (RpcError err, r') ->
     returned (api.CreateToken p name graphName namespace w)
     = Some ("", Some err))
    /\
    (Client_DeleteRouterToken
       p (mkDeleteTokenRequest name namespace) (remote w)
     = (RpcError err, r') ->
     returned (api.DeleteToken X p name graphName namespace w)
     = Some (Some ("failed to delete token: " ++ err))).
Proof.
  intros R X p name graphName namespace w err r'.
  split; intros H; run; now rewrite H.
Qed.

Lemma X3_transport_error_witness :
  returned (api.CreateToken
              (Fixtures.scripted
                 (Fixtures.with_tokens (RpcError "timeout") (RpcError "timeout")
                                       Fixtures.happy))
              "ci" "orders" "default" (Fixtures.start tt))
  = Some ("", Some "timeout")
  /\ returned (api.DeleteToken
                 Fixtures.byStatus
                 (Fixtures.scripted
                    (Fixtures.with_tokens (RpcError "timeout") (RpcError "timeout")
                                          Fixtures.happy))
                 "ci" "orders" "default" (Fixtures.start tt))
     = Some (Some "failed to delete token: timeout").
Proof.
  destruct (X3_transport_error
              unit Fixtures.byStatus
              (Fixtures.scripted
                 (Fixtures.with_tokens (RpcError "timeout") (RpcError "timeout")
                                       Fixtures.happy))
              "ci" "orders" "default" (Fixtures.start tt) "timeout" tt)
    as [Hc Hd].
  split; [apply Hc|apply Hd]; reflexivity.
Defined.

(** X4. A message that is there but carries no status envelope is not
    handled: both token calls read [Code] through the nil envelope and
    panic. *)
Theorem X4_nil_status_envelope_panics :
  forall (R : Type) (X : Externals) (p : PlatformClient R)
         (name graphName namespace : string) (w : World R) (r' : R),
    (forall msg,
        Client_CreateFederatedGraphToken
          p (mkCreateTokenRequest graphName namespace name) (remote w)
        = (RpcResponse (Some msg), r') ->
        CT_Response msg = None ->
        returned (api.CreateToken p name graphName namespace w) = None)
    /\
    (forall msg,
        Client_DeleteRouterToken
          p (mkDeleteTokenRequest name namespace) (remote w)
        = (RpcResponse (Some msg), r') ->
        DT_Response msg = None ->
        returned (api.DeleteToken X p name graphName namespace w) = None).
Proof.
  intros R X p name graphName namespace w r'.
  split; intros msg H Hr; run; rewrite H; cbn; now rewrite Hr.
Qed.

Lemma X4_nil_status_envelope_witness :
  returned (api.CreateToken
              (Fixtures.scripted
                 (Fixtures.with_tokens
                    (RpcResponse (Some (mkCreateTokenResponse None "tok")))
                    (RpcResponse (Some (mkDeleteTokenResponse None)))
                    Fixtures.happy))
              "ci" "orders" "default" (Fixtures.start tt))
  = None
  /\ returned (api.DeleteToken
                 Fixtures.byStatus
                 (Fixtures.scripted
                    (Fixtures.with_tokens
                       (RpcResponse (Some (mkCreateTokenResponse None "tok")))
                       (RpcResponse (Some (mkDeleteTokenResponse None)))
                       Fixtures.happy))
                 "ci" "orders" "default" (Fixtures.start tt))
     = None.
Proof.
  destruct (X4_nil_status_envelope_panics
              unit Fixtures.byStatus
              (Fixtures.scripted
                 (Fixtures.with_tokens
                    (RpcResponse (Some (mkCreateTokenResponse None "tok")))
                    (RpcResponse (Some (mkDeleteTokenResponse None)))
                    Fixtures.happy))
              "ci" "orders" "default" (Fixtures.start tt) tt)
    as [Hc Hd].
  split.
  - apply (Hc (mkCreateTokenResponse None "tok")); reflexivity.
  - apply (Hd (mkDeleteTokenResponse None)); reflexivity.
Defined.

(** X5. [DeleteToken] reports success exactly when the transport succeeded,
    the message is there and its status is OK. *)
Theorem X5_DeleteToken_success_iff_OK :
  forall (R : Type) (X : Externals) (p : PlatformClient R)
         (tokenName graphName namespace : string) (w : World R),
    returned (api.DeleteToken X p tokenName graphName namespace w) = Some None
    <-> exists msg r r',
        Client_DeleteRouterToken
          p (mkDeleteTokenRequest tokenName namespace) (remote w)
        = (RpcResponse (Some msg), r')
        /\ DT_Response msg = Some r
        /\ Code r = EnumStatusCode_OK.
Proof.
  intros R X p tokenName graphName namespace w. run.
  destruct (Client_DeleteRouterToken p _ (remote w)) as [[e|[msg|]] r']; cbn.
  - split; [discriminate|]. intros (msg & r & r0 & H & _). discriminate H.
  - destruct (DT_Response msg) as [r|] eqn:Hr; cbn.
    + destruct (Code r) eqn:Hc; cbn; split;
        try discriminate;
        try (intros (msg' & r1 & r0 & H & Hr' & Hc');
             inversion H; subst; rewrite Hr in Hr'; inversion Hr'; subst;
             rewrite Hc in Hc'; discriminate Hc').
      * intros _. exists msg, r, r'. now repeat split.
      * reflexivity.
    + split; [discriminate|].
      intros (msg' & r1 & r0 & H & Hr' & _).
      inversion H; subst. rewrite Hr in Hr'. discriminate Hr'.
  - split; [discriminate|]. intros (msg & r & r0 & H & _). discriminate H.
Qed.

Lemma X5_DeleteToken_witness :
  exists msg r r',
    Client_DeleteRouterToken
      (Fixtures.scripted Fixtures.happy)
      (mkDeleteTokenRequest "ci" "default") tt
    = (RpcResponse (Some msg), r')
    /\ DT_Response msg = Some r
    /\ Code r = EnumStatusCode_OK.
Proof.
  apply (proj1 (X5_DeleteToken_success_iff_OK
                  unit Fixtures.byStatus (Fixtures.scripted Fixtures.happy)
                  "ci" "orders" "default" (Fixtures.start tt))).
  reflexivity.
Defined.

(** ** The federated graph resource: the remaining paths *)

(** X6. When the create and the read that follows both succeed, Create
    makes these two calls and no other, adds no diagnostic, and stores the
    plan with identifier, name, namespace and routing URL of the graph read;
    readme, admission webhook URL, admission webhook secret and label
    matchers stay those of the plan, whatever the graph read carries. *)
Theorem X6_Create_success_frame :
  forall (R : Type) (X : Externals) (p : PlatformClient R)
         (data : FederatedGraphResourceModel) (ds : Diagnostics)
         (resp : ResourceResponse) (w : World R) (labelMatchers : list string)
         (x : option CreateFederatedGraphResponse) (r1 : R)
         (rsp : GetFederatedGraphByNameResponse) (r2 : R),
    HasError (RDiagnostics resp ++ ds)%list = false ->
    LabelMatcher.validate (map ValueString (Elements (LabelMatchers data)))
    = inl labelMatchers ->
    CreateFederatedGraph p (federated_graph.admissionWebhookSecret data)
                         (federated_graph.apiGraph data labelMatchers) (remote w)
    = ((x, None), r1) ->
    GetFederatedGraph p (ValueString (Name data)) (ValueString (Namespace data)) r1
    = ((Some rsp, None), r2) ->
    exists resp' d,
      federated_graph.Create X p (mkCreateRequest (mkSource data ds)) resp w
      = Returns resp'
          (mkWorld r2
             (calls w
                ++ [CallCreateFederatedGraph
                      (federated_graph.admissionWebhookSecret data)
                      (federated_graph.apiGraph data labelMatchers);
                    CallGetFederatedGraph (ValueString (Name data))
                                          (ValueString (Namespace data))])%list)
      /\ RDiagnostics resp' = (RDiagnostics resp ++ ds)%list
      /\ State resp' = Some d
      /\ Id d = StringValue (GetId (Graph rsp))
      /\ Name d = StringValue (GetName (Graph rsp))
      /\ Namespace d = StringValue (GetNamespace (Graph rsp))
      /\ RoutingURL d = StringValue (GetRoutingURL (Graph rsp))
      /\ Readme d = Readme data
      /\ AdmissionWebhookUrl d = AdmissionWebhookUrl data
      /\ AdmissionWebhookSecret d = AdmissionWebhookSecret data
      /\ LabelMatchers d = LabelMatchers data.
Proof.
  intros R X p data ds resp w lm x r1 rsp r2 Hds Hval Hcreate Hget.
  eexists. eexists. run. rewrite Hds. cbn.
  rewrite (ConvertAndValidateLabelMatchers_valid _ _ _ Hval).
  rewrite Hcreate. cbn. rewrite Hget. cbn.
  rewrite <- app_assoc. repeat split.
Qed.

Lemma X6_Create_success_witness :
  exists resp' d,
    federated_graph.Create
      Fixtures.byStatus (Fixtures.scripted Fixtures.happy)
      (mkCreateRequest
         (mkSource (set_LabelMatchers (ListValue [StringValue "a=b"])
                                      Fixtures.ordersPlan) []))
      Fixtures.fresh (Fixtures.start tt)
    = Returns resp'
        (mkWorld tt
           [CallCreateFederatedGraph
              (Some "s3cret")
              (mkFederatedGraph "" "orders" "default" "http://svc/routing"
                                ["a=b"] (Some "docs") None);
            CallGetFederatedGraph "orders" "default"])
    /\ RDiagnostics resp' = []
    /\ State resp' = Some d
    /\ Id d = StringValue "fg-1"
    /\ Name d = StringValue "orders"
    /\ Namespace d = StringValue "default"
    /\ RoutingURL d = StringValue "http://svc/routing"
    /\ Readme d = StringValue "docs"
    /\ AdmissionWebhookUrl d = StringNull
    /\ AdmissionWebhookSecret d = StringValue "s3cret"
    /\ LabelMatchers d = ListValue [StringValue "a=b"].
Proof.
  apply (X6_Create_success_frame
           unit Fixtures.byStatus (Fixtures.scripted Fixtures.happy)
           (set_LabelMatchers (ListValue [StringValue "a=b"]) Fixtures.ordersPlan)
           [] Fixtures.fresh (Fixtures.start tt) ["a=b"]
           (Some (mkCreateResponse [])) tt
           (mkGetResponse (Some Fixtures.ordersGraph)) tt);
    reflexivity.
Defined.

(** X7. When the create fails hard, Create stops there: the create is the
    only remote call (nothing is read), the one diagnostic added is the
    [ErrCreatingGraph] error, and the tracked state is as it was. *)
Theorem X7_Create_hard_failure_reads_nothing :
  forall (R : Type) (X : Externals) (p : PlatformClient R)
         (data : FederatedGraphResourceModel) (ds : Diagnostics)
         (resp : ResourceResponse) (w : World R) (labelMatchers : list string)
         (x : option CreateFederatedGraphResponse) (e : ApiError) (r1 : R),
    HasError (RDiagnostics resp ++ ds)%list = false ->
    LabelMatcher.validate (map ValueString (Elements (LabelMatchers data)))
    = inl labelMatchers ->
    CreateFederatedGraph p (federated_graph.admissionWebhookSecret data)
                         (federated_graph.apiGraph data labelMatchers) (remote w)
    = ((x, Some e), r1) ->
    IsSubgraphCompositionFailedError X e = false ->
    exists resp',
      federated_graph.Create X p (mkCreateRequest (mkSource data ds)) resp w
      = Returns resp'
          (mkWorld r1
             (calls w
                ++ [CallCreateFederatedGraph
                      (federated_graph.admissionWebhookSecret data)
                      (federated_graph.apiGraph data labelMatchers)])%list)
      /\ State resp' = State resp
      /\ RDiagnostics resp'
         = ((RDiagnostics resp ++ ds)
              ++ [mkDiagnostic SeverityError ErrCreatingGraph
                               (ApiError_Error X e)])%list.
Proof.
  intros R X p data ds resp w lm x e r1 Hds Hval Hcreate Hhard.
  eexists. run. rewrite Hds. cbn.
  rewrite (ConvertAndValidateLabelMatchers_valid _ _ _ Hval).
  rewrite Hcreate. cbn. rewrite Hhard. cbn. rewrite Hhard. cbn.
  repeat split.
Qed.

Lemma X7_Create_hard_failure_witness :
  exists resp',
    federated_graph.Create
      Fixtures.byStatus
      (Fixtures.scripted
         (Fixtures.with_onCreate (None, Some Fixtures.general) Fixtures.happy))
      (mkCreateRequest (mkSource Fixtures.ordersPlan []))
      Fixtures.fresh (Fixtures.start tt)
    = Returns resp'
        (mkWorld tt
           [CallCreateFederatedGraph
              (Some "s3cret")
              (mkFederatedGraph "" "orders" "default" "http://svc/routing"
                                ["team=payments"; "env=prod"] (Some "docs") None)])
    /\ State resp' = None
    /\ RDiagnostics resp'
       = [mkDiagnostic SeverityError ErrCreatingGraph
                       "PlatformClient: general error"].
Proof.
  apply (X7_Create_hard_failure_reads_nothing
           unit Fixtures.byStatus
           (Fixtures.scripted
              (Fixtures.with_onCreate (None, Some Fixtures.general) Fixtures.happy))
           Fixtures.ordersPlan [] Fixtures.fresh (Fixtures.start tt)
           ["team=payments"; "env=prod"] None Fixtures.general tt);
    reflexivity.
Defined.

(** X8. When the label matcher helper returns an error, neither Update nor
    Create reaches the remote: Update returns at once, and Create, which
    wraps the error in an [ApiError] of status ERR, reports it unless that
    error is classified as a composition failure.  Both end with an error
    in the diagnostics and the tracked state as it was. *)
Theorem X8_invalid_label_matchers_make_no_call :
  forall (R : Type) (X : Externals) (p : PlatformClient R)
         (data : FederatedGraphResourceModel) (ds : Diagnostics)
         (resp : ResourceResponse) (w : World R)
         (resp1 : ResourceResponse) (l : list string) (err : error),
    HasError (RDiagnostics resp ++ ds)%list = false ->
    ConvertAndValidateLabelMatchers (LabelMatchers data)
                                    (Diagnostics_Append resp ds)
    = (resp1, (l, Some err)) ->
    (federated_graph.missingId data = false ->
     exists resp',
       federated_graph.Update X p (mkUpdateRequest (mkSource data ds)) resp w
       = Returns resp' w
       /\ State resp' = State resp
       /\ HasError (RDiagnostics resp') = true)
    /\
    (IsSubgraphCompositionFailedError
       X (mkApiError err "CreateFederatedGraph" EnumStatusCode_ERR) = false ->
     exists resp',
       federated_graph.Create X p (mkCreateRequest (mkSource data ds)) resp w
       = Returns resp' w
       /\ State resp' = State resp
       /\ HasError (RDiagnostics resp') = true).
Proof.
  intros R X p data ds resp w resp1 l err Hds Hconv.
  assert (Hshape : State resp1 = State resp /\ HasError (RDiagnostics resp1) = true).
  { unfold ConvertAndValidateLabelMatchers in Hconv.
    destruct (LabelMatcher.validate _) as [l'|bad]; inversion Hconv; subst.
    split; [reflexivity|]. apply HasError_snoc_error. }
  destruct Hshape as [Hst Herr].
  split.
  - intros Hid. eexists. run. rewrite Hds, Hid.
    rewrite Hconv. cbn. repeat split; assumption.
  - intros Hhard. eexists. run. rewrite Hds. cbn.
    rewrite Hconv. cbn. rewrite Hhard. cbn.
    split; [reflexivity|]. cbn. split; [exact Hst|].
    rewrite HasError_app, Herr. reflexivity.
Qed.

Lemma X8_invalid_label_matchers_witness :
  (exists resp',
      federated_graph.Update
        Fixtures.byStatus (Fixtures.scripted Fixtures.happy)
        (mkUpdateRequest
           (mkSource (set_LabelMatchers (ListValue [StringValue "team"])
                                        Fixtures.orders) []))
        (Fixtures.tracking Fixtures.orders) (Fixtures.start tt)
      = Returns resp' (Fixtures.start tt)
      /\ State resp' = Some Fixtures.orders
      /\ HasError (RDiagnostics resp') = true)
  /\
  (exists resp',
      federated_graph.Create
        Fixtures.byStatus (Fixtures.scripted Fixtures.happy)
        (mkCreateRequest
           (mkSource (set_LabelMatchers (ListValue [StringValue "team"])
                                        Fixtures.orders) []))
        (Fixtures.tracking Fixtures.orders) (Fixtures.start tt)
      = Returns resp' (Fixtures.start tt)
      /\ State resp' = Some Fixtures.orders
      /\ HasError (RDiagnostics resp') = true).
Proof.
  destruct (X8_invalid_label_matchers_make_no_call
              unit Fixtures.byStatus (Fixtures.scripted Fixtures.happy)
              (set_LabelMatchers (ListValue [StringValue "team"]) Fixtures.orders)
              [] (Fixtures.tracking Fixtures.orders) (Fixtures.start tt)
              (AddDiagnosticError (Fixtures.tracking Fixtures.orders)
                 ErrInvalidLabelMatchers "invalid label matcher: team")
              [] "invalid label matcher: team"
              eq_refl eq_refl) as [Hu Hc].
  split; [apply Hu|apply Hc]; reflexivity.
Defined.

(** X9. A read error that is not a not-found error keeps the resource: Read
    makes its one call, adds the [ErrReadingGraph] error as the one new
    diagnostic, and leaves the tracked state as it was (it is not
    removed). *)
Theorem X9_Read_hard_error_keeps_state :
  forall (R : Type) (X : Externals) (p : PlatformClient R)
         (data : FederatedGraphResourceModel) (ds : Diagnostics)
         (resp : ResourceResponse) (w : World R)
         (x : option GetFederatedGraphByNameResponse) (e : ApiError) (r' : R),
    HasError (RDiagnostics resp ++ ds)%list = false ->
    federated_graph.missingId data = false ->
    GetFederatedGraph p (ValueString (Name data)) (ValueString (Namespace data))
                      (remote w) = ((x, Some e), r') ->
    IsNotFoundError X e = false ->
    exists resp',
      federated_graph.Read X p (mkReadRequest (mkSource data ds)) resp w
      = Returns resp'
          (mkWorld r' (calls w ++ [CallGetFederatedGraph
                                     (ValueString (Name data))
                                     (ValueString (Namespace data))])%list)
      /\ State resp' = State resp
      /\ RDiagnostics resp'
         = ((RDiagnostics resp ++ ds)
              ++ [mkDiagnostic SeverityError ErrReadingGraph
                    ("Could not fetch subgraph '" ++ ValueString (Name data)
                       ++ "': " ++ ApiError_Error X e)])%list.
Proof.
  intros R X p data ds resp w x e r' Hds Hid Hget Hhard.
  eexists. run. rewrite Hds, Hid, Hget. cbn. rewrite Hhard. cbn.
  repeat split.
Qed.

Lemma X9_Read_hard_error_witness :
  exists resp',
    federated_graph.Read
      Fixtures.byStatus
      (Fixtures.scripted
         (Fixtures.with_onGet (None, Some Fixtures.general) Fixtures.happy))
      (mkReadRequest (mkSource Fixtures.orders []))
      (Fixtures.tracking Fixtures.orders) (Fixtures.start tt)
    = Returns resp' (mkWorld tt [CallGetFederatedGraph "orders" "default"])
    /\ State resp' = Some Fixtures.orders
    /\ RDiagnostics resp'
       = [mkDiagnostic SeverityError ErrReadingGraph
            "Could not fetch subgraph 'orders': PlatformClient: general error"].
Proof.
  apply (X9_Read_hard_error_keeps_state
           unit Fixtures.byStatus
           (Fixtures.scripted
              (Fixtures.with_onGet (None, Some Fixtures.general) Fixtures.happy))
           Fixtures.orders [] (Fixtures.tracking Fixtures.orders)
           (Fixtures.start tt) None Fixtures.general tt);
    reflexivity.
Defined.

(** X10. Read relies on the response to carry a graph: when the read
    succeeds with a response whose graph is nil, or with no response at
    all, Read panics on the field it reads through the nil pointer. *)
Theorem X10_Read_nil_graph_panics :
  forall (R : Type) (X : Externals) (p : PlatformClient R)
         (data : FederatedGraphResourceModel) (ds : Diagnostics)
         (resp : ResourceResponse) (w : World R)
         (x : option GetFederatedGraphByNameResponse) (r' : R),
    HasError (RDiagnostics resp ++ ds)%list = false ->
    federated_graph.missingId data = false ->
    GetFederatedGraph p (ValueString (Name data)) (ValueString (Namespace data))
                      (remote w) = ((x, None), r') ->
    x = None \/ x = Some (mkGetResponse None) ->
    federated_graph.Read X p (mkReadRequest (mkSource data ds)) resp w
    = Panics (mkWorld r' (calls w ++ [CallGetFederatedGraph
                                        (ValueString (Name data))
                                        (ValueString (Namespace data))])%list).
Proof.
  intros R X p data ds resp w x r' Hds Hid Hget Hx.
  run. rewrite Hds, Hid, Hget. cbn.
  destruct Hx as [-> | ->]; reflexivity.
Qed.

Lemma X10_Read_nil_graph_witness :
  federated_graph.Read
    Fixtures.byStatus
    (Fixtures.scripted
       (Fixtures.with_onGet (Some (mkGetResponse None), None) Fixtures.happy))
    (mkReadRequest (mkSource Fixtures.orders []))
    (Fixtures.tracking Fixtures.orders) (Fixtures.start tt)
  = Panics (mkWorld tt [CallGetFederatedGraph "orders" "default"]).
Proof.
  apply (X10_Read_nil_graph_panics
           unit Fixtures.byStatus
           (Fixtures.scripted
              (Fixtures.with_onGet (Some (mkGetResponse None), None) Fixtures.happy))
           Fixtures.orders [] (Fixtures.tracking Fixtures.orders)
           (Fixtures.start tt) (Some (mkGetResponse None)) tt);
    try reflexivity.
  right. reflexivity.
Defined.

(** X11. Create does not check the identifier it reads.  When the read that
    follows a successful create carries an empty identifier (or no graph at
    all), Create still ends without any diagnostic of its own and stores a
    state whose identifier is the empty string, the very state on which
    Read, Update and Delete stop with the missing-identifier error. *)
Theorem X11_Create_stores_empty_identifier :
  forall (R : Type) (X : Externals) (p : PlatformClient R)
         (data : FederatedGraphResourceModel) (ds : Diagnostics)
         (resp : ResourceResponse) (w : World R) (labelMatchers : list string)
         (x : option CreateFederatedGraphResponse) (r1 : R)
         (rsp : GetFederatedGraphByNameResponse) (r2 : R),
    HasError (RDiagnostics resp ++ ds)%list = false ->
    LabelMatcher.validate (map ValueString (Elements (LabelMatchers data)))
    = inl labelMatchers ->
    CreateFederatedGraph p (federated_graph.admissionWebhookSecret data)
                         (federated_graph.apiGraph data labelMatchers) (remote w)
    = ((x, None), r1) ->
    GetFederatedGraph p (ValueString (Name data)) (ValueString (Namespace data)) r1
    = ((Some rsp, None), r2) ->
    GetId (Graph rsp) = "" ->
    exists resp' d,
      returned (federated_graph.Create
                  X p (mkCreateRequest (mkSource data ds)) resp w)
      = Some resp'
      /\ HasError (RDiagnostics resp') = false
      /\ State resp' = Some d
      /\ Id d = StringValue ""
      /\ federated_graph.missingId d = true.
Proof.
  intros R X p data ds resp w lm x r1 rsp r2 Hds Hval Hcreate Hget Hid.
  eexists. eexists. run. rewrite Hds. cbn.
  rewrite (ConvertAndValidateLabelMatchers_valid _ _ _ Hval).
  rewrite Hcreate. cbn. rewrite Hget. cbn.
  split; [reflexivity|]. cbn. rewrite Hid.
  repeat split. exact Hds.
Qed.

Lemma X11_Create_empty_identifier_witness :
  exists resp' d,
    returned (federated_graph.Create
                Fixtures.byStatus
                (Fixtures.scripted
                   (Fixtures.with_onGet (Some (mkGetResponse None), None)
                                        Fixtures.happy))
                (mkCreateRequest (mkSource Fixtures.ordersPlan []))
                Fixtures.fresh (Fixtures.start tt))
    = Some resp'
    /\ HasError (RDiagnostics resp') = false
    /\ State resp' = Some d
    /\ Id d = StringValue ""
    /\ federated_graph.missingId d = true.
Proof.
  apply (X11_Create_stores_empty_identifier
           unit Fixtures.byStatus
           (Fixtures.scripted
              (Fixtures.with_onGet (Some (mkGetResponse None), None) Fixtures.happy))
           Fixtures.ordersPlan [] Fixtures.fresh (Fixtures.start tt)
           ["team=payments"; "env=prod"] (Some (mkCreateResponse [])) tt
           (mkGetResponse None) tt);
    reflexivity.
Defined.

(** X12. Update reads the composition errors through the response pointer
    without a nil check: when the update comes back with no response and
    either no error or a composition failure, Update panics after its one
    call. *)
Theorem X12_Update_nil_response_panics :
  forall (R : Type) (X : Externals) (p : PlatformClient R)
         (data : FederatedGraphResourceModel) (ds : Diagnostics)
         (resp : ResourceResponse) (w : World R) (labelMatchers : list string)
         (apiError : option ApiError) (r' : R),
    HasError (RDiagnostics resp ++ ds)%list = false ->
    federated_graph.missingId data = false ->
    LabelMatcher.validate (map ValueString (Elements (LabelMatchers data)))
    = inl labelMatchers ->
    UpdateFederatedGraph p (federated_graph.admissionWebhookSecret data)
                         (federated_graph.apiGraph data labelMatchers)
                         (remote w) = ((None, apiError), r') ->
    (forall e, apiError = Some e -> IsSubgraphCompositionFailedError X e = true) ->
    federated_graph.Update X p (mkUpdateRequest (mkSource data ds)) resp w
    = Panics (mkWorld r'
                (calls w ++ [CallUpdateFederatedGraph
                               (federated_graph.admissionWebhookSecret data)
                               (federated_graph.apiGraph data labelMatchers)])%list).
Proof.
  intros R X p data ds resp w lm apiError r' Hds Hid Hval Hupd Hsoft.
  run. rewrite Hds, Hid.
  rewrite (ConvertAndValidateLabelMatchers_valid _ _ _ Hval).
  rewrite Hupd. cbn.
  destruct apiError as [e|]; [rewrite (Hsoft e eq_refl)|]; reflexivity.
Qed.

Lemma X12_Update_nil_response_witness :
  federated_graph.Update
    Fixtures.byStatus
    (Fixtures.scripted
       (Fixtures.with_onUpdate (None, Some Fixtures.compositionFailed)
                               Fixtures.happy))
    (mkUpdateRequest (mkSource Fixtures.orders []))
    (Fixtures.tracking Fixtures.orders) (Fixtures.start tt)
  = Panics (mkWorld tt
              [CallUpdateFederatedGraph
                 (Some "s3cret")
                 (mkFederatedGraph "" "orders" "default" "http://svc/routing"
                                   ["team=payments"; "env=prod"] (Some "docs") None)]).
Proof.
  apply (X12_Update_nil_response_panics
           unit Fixtures.byStatus
           (Fixtures.scripted
              (Fixtures.with_onUpdate (None, Some Fixtures.compositionFailed)
                                      Fixtures.happy))
           Fixtures.orders [] (Fixtures.tracking Fixtures.orders)
           (Fixtures.start tt) ["team=payments"; "env=prod"]
           (Some Fixtures.compositionFailed) tt);
    try reflexivity.
  intros e He. inversion He; subst. reflexivity.
Defined.

(** ** What holds on every path of the four handlers *)

Lemma HasError_snoc_warning (a : Diagnostics) (s : Summary) (msg : string) :
  HasError (a ++ [mkDiagnostic SeverityWarning s msg])%list = HasError a.
Proof. rewrite HasError_app. unfold HasError at 2. cbn. apply orb_false_r. Qed.

(** Like [run], and opens the label matcher helper as well. *)
Ltac run_all :=
  unfold federated_graph.Create, federated_graph.createFederatedGraph,
         federated_graph.Read, federated_graph.Update, federated_graph.Delete,
         monograph.Read, ConvertAndValidateLabelMatchers,
         bind, call, ret, deref, panic; cbn.

(** X13. Delete never panics and never writes the tracked state: on every
    path it returns with the state it was given (removing it is left to the
    host).  When the remote delete succeeds it adds no diagnostic. *)
Theorem X13_Delete_never_writes_state :
  forall (R : Type) (X : Externals) (p : PlatformClient R)
         (data : FederatedGraphResourceModel) (ds : Diagnostics)
         (resp : ResourceResponse) (w : World R),
    (exists resp' w',
        federated_graph.Delete X p (mkDeleteRequest (mkSource data ds)) resp w
        = Returns resp' w'
        /\ State resp' = State resp)
    /\
    (forall r',
        HasError (RDiagnostics resp ++ ds)%list = false ->
        federated_graph.missingId data = false ->
        DeleteFederatedGraph p (ValueString (Name data))
                             (ValueString (Namespace data)) (remote w)
        = (None, r') ->
        federated_graph.Delete X p (mkDeleteRequest (mkSource data ds)) resp w
        = Returns (Diagnostics_Append resp ds)
            (mkWorld r' (calls w ++ [CallDeleteFederatedGraph
                                       (ValueString (Name data))
                                       (ValueString (Namespace data))])%list)).
Proof.
  intros R X p data ds resp w. split.
  - run_all. paths; eexists; eexists; split; reflexivity.
  - intros r' Hds Hid Hdel. run_all. now rewrite Hds, Hid, Hdel.
Qed.

Lemma X13_Delete_witness :
  federated_graph.Delete
    Fixtures.byStatus (Fixtures.scripted Fixtures.happy)
    (mkDeleteRequest (mkSource Fixtures.orders []))
    (Fixtures.tracking Fixtures.orders) (Fixtures.start tt)
  = Returns (Fixtures.tracking Fixtures.orders)
      (mkWorld tt [CallDeleteFederatedGraph "orders" "default"]).
Proof.
  apply (proj2 (X13_Delete_never_writes_state
                  unit Fixtures.byStatus (Fixtures.scripted Fixtures.happy)
                  Fixtures.orders [] (Fixtures.tracking Fixtures.orders)
                  (Fixtures.start tt)) tt);
    reflexivity.
Defined.

(** X14. No handler retries or reaches for another remote operation.  On
    every path, panics included, the calls added to the log are: for Read
    nothing or one read by (name, namespace); for Delete nothing or one
    delete by (name, namespace); for Update nothing or one update carrying
    the plan; for Create nothing, or one create, or one create followed by
    one read by (name, namespace). *)
Theorem X14_calls_of_each_handler :
  forall (R : Type) (X : Externals) (p : PlatformClient R)
         (data : FederatedGraphResourceModel) (ds : Diagnostics)
         (resp : ResourceResponse) (w : World R),
    let name := ValueString (Name data) in
    let namespace := ValueString (Namespace data) in
    let secret := federated_graph.admissionWebhookSecret data in
    (exists l,
        calls (world_of (federated_graph.Read
                           X p (mkReadRequest (mkSource data ds)) resp w))
        = (calls w ++ l)%list
        /\ (l = [] \/ l = [CallGetFederatedGraph name namespace]))
    /\
    (exists l,
        calls (world_of (federated_graph.Delete
                           X p (mkDeleteRequest (mkSource data ds)) resp w))
        = (calls w ++ l)%list
        /\ (l = [] \/ l = [CallDeleteFederatedGraph name namespace]))
    /\
    (exists l,
        calls (world_of (federated_graph.Update
                           X p (mkUpdateRequest (mkSource data ds)) resp w))
        = (calls w ++ l)%list
        /\ (l = []
            \/ exists lm,
                l = [CallUpdateFederatedGraph
                       secret (federated_graph.apiGraph data lm)]))
    /\
    (exists l,
        calls (world_of (federated_graph.Create
                           X p (mkCreateRequest (mkSource data ds)) resp w))
        = (calls w ++ l)%list
        /\ (l = []
            \/ exists lm,
                l = [CallCreateFederatedGraph
                       secret (federated_graph.apiGraph data lm)]
                \/ l = [CallCreateFederatedGraph
                          secret (federated_graph.apiGraph data lm);
                        CallGetFederatedGraph name namespace])).
Proof.
  intros R X p data ds resp w name namespace secret.
  subst name namespace secret.
  repeat split; run_all; paths;
    try (exists []; split; [now rewrite app_nil_r | now left]);
    try (eexists; split; [reflexivity | right; reflexivity]);
    try (eexists; split;
         [reflexivity | right; eexists; reflexivity]);
    try (eexists; split;
         [reflexivity | right; eexists; left; reflexivity]);
    try (eexists; split;
         [rewrite <- app_assoc; reflexivity
         | right; eexists; right; reflexivity]).
Qed.

(** X15. No handler drops or reorders a diagnostic: whenever Create, Read,
    Update or Delete returns, the diagnostics of the response start with
    those that were there once the model had been decoded. *)
Theorem X15_diagnostics_only_grow :
  forall (R : Type) (X : Externals) (p : PlatformClient R)
         (data : FederatedGraphResourceModel) (ds : Diagnostics)
         (resp : ResourceResponse) (w : World R),
    keeps_diagnostics resp ds
      (federated_graph.Create X p (mkCreateRequest (mkSource data ds)) resp w)
    /\ keeps_diagnostics resp ds
      (federated_graph.Read X p (mkReadRequest (mkSource data ds)) resp w)
    /\ keeps_diagnostics resp ds
      (federated_graph.Update X p (mkUpdateRequest (mkSource data ds)) resp w)
    /\ keeps_diagnostics resp ds
      (federated_graph.Delete X p (mkDeleteRequest (mkSource data ds)) resp w).
Proof.
  intros R X p data ds resp w. unfold keeps_diagnostics.
  repeat split; run_all; paths; intros resp' H; inversion H; subst; cbn;
    rewrite <- ?app_assoc;
    first [ exists []; now rewrite ?app_nil_r
          | eexists; rewrite <- ?app_assoc; reflexivity ].
Qed.

Lemma X15_diagnostics_witness :
  returned (federated_graph.Read
              Fixtures.byStatus Fixtures.nothingThere
              (mkReadRequest
                 (mkSource Fixtures.orders
                           [mkDiagnostic SeverityWarning (Literal "deprecated")
                                         "namespace"]))
              (Fixtures.tracking Fixtures.orders) (Fixtures.start tt))
  = Some (mkResourceResponse
            None
            [mkDiagnostic SeverityWarning (Literal "deprecated") "namespace";
             mkDiagnostic SeverityWarning (Literal "Graph not found")
                          "Graph 'orders' not found will be recreated"])
  /\ exists more,
      [mkDiagnostic SeverityWarning (Literal "deprecated") "namespace";
       mkDiagnostic SeverityWarning (Literal "Graph not found")
                    "Graph 'orders' not found will be recreated"]
      = (([] ++ [mkDiagnostic SeverityWarning (Literal "deprecated") "namespace"])
           ++ more)%list.
Proof.
  split; [reflexivity|].
  apply (proj1 (proj2 (X15_diagnostics_only_grow
                         unit Fixtures.byStatus Fixtures.nothingThere
                         Fixtures.orders
                         [mkDiagnostic SeverityWarning (Literal "deprecated")
                                       "namespace"]
                         (Fixtures.tracking Fixtures.orders)
                         (Fixtures.start tt)))
               (mkResourceResponse
                  None
                  [mkDiagnostic SeverityWarning (Literal "deprecated") "namespace";
                   mkDiagnostic SeverityWarning (Literal "Graph not found")
                                "Graph 'orders' not found will be recreated"])).
  reflexivity.
Defined.

(** X16. An error stops a handler before it writes: whenever Create, Read,
    Update or Delete returns with an error among the diagnostics, the
    tracked state is the one it was given.  The state is written or removed
    only on paths that end with warnings at most. *)
Theorem X16_error_leaves_state_untouched :
  forall (R : Type) (X : Externals) (p : PlatformClient R)
         (data : FederatedGraphResourceModel) (ds : Diagnostics)
         (resp : ResourceResponse) (w : World R),
    error_keeps_state resp
      (federated_graph.Create X p (mkCreateRequest (mkSource data ds)) resp w)
    /\ error_keeps_state resp
      (federated_graph.Read X p (mkReadRequest (mkSource data ds)) resp w)
    /\ error_keeps_state resp
      (federated_graph.Update X p (mkUpdateRequest (mkSource data ds)) resp w)
    /\ error_keeps_state resp
      (federated_graph.Delete X p (mkDeleteRequest (mkSource data ds)) resp w).
Proof.
  intros R X p data ds resp w. unfold error_keeps_state.
  repeat split; run_all; paths; intros resp' H He; inversion H; subst;
    cbn in *; try reflexivity;
    rewrite ?HasError_snoc_warning in He; congruence.
Qed.

Lemma X16_error_witness :
  returned (federated_graph.Update
              Fixtures.byStatus
              (Fixtures.scripted
                 (Fixtures.with_onUpdate (None, Some Fixtures.general)
                                         Fixtures.happy))
              (mkUpdateRequest
                 (mkSource (set_RoutingURL (StringValue "http://new")
                                           Fixtures.orders) []))
              (Fixtures.tracking Fixtures.orders) (Fixtures.start tt))
  = Some (mkResourceResponse
            (Some Fixtures.orders)
            [mkDiagnostic SeverityError ErrUpdatingGraph
                          "PlatformClient: general error"])
  /\ State (mkResourceResponse
              (Some Fixtures.orders)
              [mkDiagnostic SeverityError ErrUpdatingGraph
                            "PlatformClient: general error"])
     = State (Fixtures.tracking Fixtures.orders).
Proof.
  split; [reflexivity|].
  apply (proj1 (proj2 (proj2 (X16_error_leaves_state_untouched
                                unit Fixtures.byStatus
                                (Fixtures.scripted
                                   (Fixtures.with_onUpdate
                                      (None, Some Fixtures.general) Fixtures.happy))
                                (set_RoutingURL (StringValue "http://new")
                                                Fixtures.orders)
                                [] (Fixtures.tracking Fixtures.orders)
                                (Fixtures.start tt)))));
    reflexivity.
Defined.

(** ** The monograph data source: every path of Read *)

(** X17. The monograph is never looked up under an empty name or an empty
    namespace.  On every path Read of the data source makes no call, or one
    call whose name is the configured name, not empty, and whose namespace
    is the configured one, or "default" when none is configured. *)
Theorem X17_monograph_lookup_key :
  forall (R : Type) (X : Externals) (p : PlatformClient R)
         (data : monograph.MonographDataSourceModel) (ds : Diagnostics)
         (resp : monograph.ReadResponse) (w : World R),
    calls (world_of (monograph.Read
                       X p (monograph.mkReadRequest (monograph.mkConfig data ds))
                       resp w))
    = calls w
    \/ exists namespace,
        calls (world_of (monograph.Read
                           X p (monograph.mkReadRequest (monograph.mkConfig data ds))
                           resp w))
        = (calls w ++ [CallGetMonograph (ValueString (monograph.Name data))
                                        namespace])%list
        /\ ValueString (monograph.Name data) <> ""
        /\ namespace <> ""
        /\ (ValueString (monograph.Namespace data) <> "" ->
            namespace = ValueString (monograph.Namespace data))
        /\ (ValueString (monograph.Namespace data) = "" ->
            namespace = "default").
Proof.
  intros R X p data ds resp w. run_all.
  destruct (HasError (monograph.RDiagnostics resp ++ ds)%list); cbn;
    [now left|].
  destruct (IsNull (monograph.Name data)
            || String.eqb (ValueString (monograph.Name data)) "") eqn:Hname;
    cbn; [now left|].
  apply orb_false_iff in Hname as [_ Hname].
  apply String.eqb_neq in Hname.
  right.
  destruct (String.eqb (ValueString (monograph.Namespace data)) "") eqn:Hns.
  - apply String.eqb_eq in Hns. exists "default".
    split; [paths; reflexivity|].
    repeat split; try assumption; try discriminate.
    intros Hne. now elim Hne.
  - apply String.eqb_neq in Hns.
    exists (ValueString (monograph.Namespace data)).
    split; [paths; reflexivity|].
    repeat split; try assumption. intros He. now elim Hns.
Qed.

(** X18. When the remote read succeeds, Read of the data source stores the
    identifier, name, namespace, routing URL, readme and admission webhook
    URL of the monograph read (empty strings when the remote hands back no
    monograph), and adds no diagnostic.  The admission webhook secret, the
    label matchers, the websocket subprotocol and the subscription protocol
    are never filled in: they stay as configured. *)
Theorem X18_monograph_Read_success_frame :
  forall (R : Type) (X : Externals) (p : PlatformClient R)
         (data : monograph.MonographDataSourceModel) (ds : Diagnostics)
         (resp : monograph.ReadResponse) (w : World R)
         (namespace : string) (z : option FederatedGraph) (r' : R),
    HasError (monograph.RDiagnostics resp ++ ds)%list = false ->
    IsNull (monograph.Name data)
    || String.eqb (ValueString (monograph.Name data)) "" = false ->
    namespace = (if String.eqb (ValueString (monograph.Namespace data)) ""
                 then "default" else ValueString (monograph.Namespace data)) ->
    GetMonograph p (ValueString (monograph.Name data)) namespace (remote w)
    = ((z, None), r') ->
    exists resp' d,
      returned (monograph.Read
                  X p (monograph.mkReadRequest (monograph.mkConfig data ds)) resp w)
      = Some resp'
      /\ monograph.RDiagnostics resp' = (monograph.RDiagnostics resp ++ ds)%list
      /\ monograph.State resp' = Some d
      /\ monograph.Id d = StringValue (GetId z)
      /\ monograph.Name d = StringValue (GetName z)
      /\ monograph.Namespace d = StringValue (GetNamespace z)
      /\ monograph.RoutingURL d = StringValue (GetRoutingURL z)
      /\ monograph.Readme d = StringValue (GetReadme z)
      /\ monograph.AdmissionWebhookURL d = StringValue (GetAdmissionWebhookUrl z)
      /\ monograph.AdmissionWebhookSecret d = monograph.AdmissionWebhookSecret data
      /\ monograph.LabelMatchers d = monograph.LabelMatchers data
      /\ monograph.WebsocketSubprotocol d = monograph.WebsocketSubprotocol data
      /\ monograph.SubscriptionProtocol d = monograph.SubscriptionProtocol data.
Proof.
  intros R X p data ds resp w namespace z r' Hds Hname -> Hget.
  eexists. eexists. run_all. rewrite Hds, Hname, Hget. cbn.
  repeat split.
Qed.

Lemma X18_monograph_Read_witness :
  exists resp' d,
    returned (monograph.Read
                Fixtures.byStatus (Fixtures.scripted Fixtures.happy)
                (monograph.mkReadRequest
                   (monograph.mkConfig Fixtures.testMonograph []))
                (monograph.mkReadResponse None []) (Fixtures.start tt))
    = Some resp'
    /\ monograph.RDiagnostics resp' = []
    /\ monograph.State resp' = Some d
    /\ monograph.Id d = StringValue "fg-1"
    /\ monograph.Name d = StringValue "orders"
    /\ monograph.Namespace d = StringValue "default"
    /\ monograph.RoutingURL d = StringValue "http://svc/routing"
    /\ monograph.Readme d = StringValue ""
    /\ monograph.AdmissionWebhookURL d = StringValue ""
    /\ monograph.AdmissionWebhookSecret d = StringNull
    /\ monograph.LabelMatchers d = ListNull
    /\ monograph.WebsocketSubprotocol d = StringNull
    /\ monograph.SubscriptionProtocol d = StringNull.
Proof.
  apply (X18_monograph_Read_success_frame
           unit Fixtures.byStatus (Fixtures.scripted Fixtures.happy)
           Fixtures.testMonograph [] (monograph.mkReadResponse None [])
           (Fixtures.start tt) "default" (Some Fixtures.ordersGraph) tt);
    reflexivity.
Defined.

(** X19. Read of the data source on a configuration whose name is null or
    empty makes no remote call: it returns in the world it started in, the
    one diagnostic added is the [ErrInvalidMonographName] error, and the
    state is as it was. *)
Theorem X19_monograph_missing_name :
  forall (R : Type) (X : Externals) (p : PlatformClient R)
         (data : monograph.MonographDataSourceModel) (ds : Diagnostics)
         (resp : monograph.ReadResponse) (w : World R),
    HasError (monograph.RDiagnostics resp ++ ds)%list = false ->
    IsNull (monograph.Name data) = true
    \/ ValueString (monograph.Name data) = "" ->
    exists resp',
      monograph.Read X p (monograph.mkReadRequest (monograph.mkConfig data ds))
                     resp w
      = Returns resp' w
      /\ monograph.State resp' = monograph.State resp
      /\ monograph.RDiagnostics resp'
         = ((monograph.RDiagnostics resp ++ ds)
              ++ [mkDiagnostic SeverityError ErrInvalidMonographName
                    ("The 'name' attribute is required for monograph in namespace: "
                       ++ ValueString (monograph.Namespace data))])%list.
Proof.
  intros R X p data ds resp w Hds Hname.
  assert (Hb : IsNull (monograph.Name data)
               || String.eqb (ValueString (monograph.Name data)) "" = true).
  { apply orb_true_iff. destruct Hname as [H|H]; [now left|right].
    now apply String.eqb_eq. }
  eexists. run_all. rewrite Hds, Hb. repeat split.
Qed.

Lemma X19_monograph_missing_name_witness :
  exists resp',
    monograph.Read
      Fixtures.byStatus (Fixtures.scripted Fixtures.happy)
      (monograph.mkReadRequest
         (monograph.mkConfig
            (monograph.mkModel StringNull StringNull (StringValue "team-a")
                               StringNull StringNull StringNull ListNull
                               StringNull StringNull StringNull) []))
      (monograph.mkReadResponse None []) (Fixtures.start tt)
    = Returns resp' (Fixtures.start tt)
    /\ monograph.State resp' = None
    /\ monograph.RDiagnostics resp'
       = [mkDiagnostic SeverityError ErrInvalidMonographName
            "The 'name' attribute is required for monograph in namespace: team-a"].
Proof.
  apply (X19_monograph_missing_name
           unit Fixtures.byStatus (Fixtures.scripted Fixtures.happy)
           (monograph.mkModel StringNull StringNull (StringValue "team-a")
                              StringNull StringNull StringNull ListNull
                              StringNull StringNull StringNull) []
           (monograph.mkReadResponse None []) (Fixtures.start tt)).
  - reflexivity.
  - left. reflexivity.
Defined.

(** ** How the handlers compose *)

Lemma missingId_StringValue (d : FederatedGraphResourceModel) (s : string) :
  Id d = StringValue s -> s <> "" -> federated_graph.missingId d = false.
Proof.
  intros Hd Hs. unfold federated_graph.missingId. rewrite Hd. cbn.
  now apply String.eqb_neq.
Qed.

(** X20. Read right after a successful Create finds nothing to change but
    the label matchers.  Create stores the name and namespace of the graph
    it read, so the Read that follows looks the graph up under those; when
    the remote answers with the same graph, whose identifier is not empty,
    Read stores the state Create stored with the label matchers replaced by
    those of the graph, and so the very same state when the graph carries
    the label matchers of the plan. *)
Theorem X20_Read_after_Create :
  forall (R : Type) (X : Externals) (p : PlatformClient R)
         (data : FederatedGraphResourceModel) (ds : Diagnostics)
         (resp : ResourceResponse) (w : World R) (labelMatchers : list string)
         (x : option CreateFederatedGraphResponse) (r1 : R)
         (g : FederatedGraph) (r2 r3 : R),
    HasError (RDiagnostics resp ++ ds)%list = false ->
    LabelMatcher.validate (map ValueString (Elements (LabelMatchers data)))
    = inl labelMatchers ->
    CreateFederatedGraph p (federated_graph.admissionWebhookSecret data)
                         (federated_graph.apiGraph data labelMatchers) (remote w)
    = ((x, None), r1) ->
    GetFederatedGraph p (ValueString (Name data)) (ValueString (Namespace data)) r1
    = ((Some (mkGetResponse (Some g)), None), r2) ->
    FG_Id g <> "" ->
    GetFederatedGraph p (FG_Name g) (FG_Namespace g) r2
    = ((Some (mkGetResponse (Some g)), None), r3) ->
    exists resp1 w1 d1 resp2 w2 d2,
      federated_graph.Create X p (mkCreateRequest (mkSource data ds)) resp w
      = Returns resp1 w1
      /\ State resp1 = Some d1
      /\ federated_graph.Read X p (mkReadRequest (mkSource d1 []))
                              (mkResourceResponse (State resp1) []) w1
         = Returns resp2 w2
      /\ RDiagnostics resp2 = []
      /\ State resp2 = Some d2
      /\ d2 = set_LabelMatchers
                (ListValue (map StringValue (FG_LabelMatchers g))) d1
      /\ (LabelMatchers data = ListValue (map StringValue (FG_LabelMatchers g)) ->
          d2 = d1).
Proof.
  intros R X p data ds resp w lm x r1 g r2 r3 Hds Hval Hcreate Hget Hid Hget2.
  eexists. eexists. eexists. eexists. eexists. eexists.
  split.
  { run. rewrite Hds. cbn.
    rewrite (ConvertAndValidateLabelMatchers_valid _ _ _ Hval).
    rewrite Hcreate. cbn. rewrite Hget. cbn. reflexivity. }
  split; [reflexivity|].
  split.
  { run. change (HasError []) with false. cbn.
    unfold federated_graph.missingId. cbn.
    rewrite (proj2 (String.eqb_neq _ _) Hid). cbn.
    rewrite Hget2. cbn. reflexivity. }
  split; [reflexivity|]. split; [reflexivity|].
  split; [reflexivity|].
  intros Hsame. destruct data as [i n ns rd ru au sec lms].
  cbn in Hsame. subst lms. vm_compute. reflexivity.
Qed.

Lemma X20_Read_after_Create_witness :
  exists resp1 w1 d1 resp2 w2 d2,
    federated_graph.Create Fixtures.byStatus (Fixtures.scripted Fixtures.happy)
      (mkCreateRequest (mkSource Fixtures.ordersPlan []))
      Fixtures.fresh (Fixtures.start tt)
    = Returns resp1 w1
    /\ State resp1 = Some d1
    /\ federated_graph.Read Fixtures.byStatus (Fixtures.scripted Fixtures.happy)
         (mkReadRequest (mkSource d1 []))
         (mkResourceResponse (State resp1) []) w1
       = Returns resp2 w2
    /\ RDiagnostics resp2 = []
    /\ State resp2 = Some d2
    /\ d2 = set_LabelMatchers
              (ListValue (map StringValue ["team=payments"; "env=prod"])) d1
    /\ d2 = d1.
Proof.
  destruct (X20_Read_after_Create
              unit Fixtures.byStatus (Fixtures.scripted Fixtures.happy)
              Fixtures.ordersPlan [] Fixtures.fresh (Fixtures.start tt)
              ["team=payments"; "env=prod"] (Some (mkCreateResponse [])) tt
              Fixtures.ordersGraph tt tt
              eq_refl eq_refl eq_refl eq_refl
              (fun H : "fg-1" = "" =>
                 match H in (_ = s)
                       return (match s with
                               | EmptyString => False
                               | String _ _ => True
                               end)
                 with eq_refl => I end)
              eq_refl)
    as (resp1 & w1 & d1 & resp2 & w2 & d2 & H1 & H2 & H3 & H4 & H5 & H6 & H7).
  exists resp1, w1, d1, resp2, w2, d2.
  repeat split; try assumption.
  apply H7. reflexivity.
Defined.

(** X21. Read settles after one round.  When a Read has stored the graph it
    read, whose identifier is not empty, and the remote still answers with
    that graph under the name and namespace it carries, a second Read
    stores the same state again and adds no diagnostic. *)
Theorem X21_Read_twice :
  forall (R : Type) (X : Externals) (p : PlatformClient R)
         (data : FederatedGraphResourceModel) (ds : Diagnostics)
         (resp : ResourceResponse) (w : World R)
         (g : FederatedGraph) (r1 r2 : R),
    HasError (RDiagnostics resp ++ ds)%list = false ->
    federated_graph.missingId data = false ->
    GetFederatedGraph p (ValueString (Name data)) (ValueString (Namespace data))
                      (remote w)
    = ((Some (mkGetResponse (Some g)), None), r1) ->
    FG_Id g <> "" ->
    GetFederatedGraph p (FG_Name g) (FG_Namespace g) r1
    = ((Some (mkGetResponse (Some g)), None), r2) ->
    exists resp1 w1 d1 resp2 w2,
      federated_graph.Read X p (mkReadRequest (mkSource data ds)) resp w
      = Returns resp1 w1
      /\ State resp1 = Some d1
      /\ federated_graph.Read X p (mkReadRequest (mkSource d1 []))
                              (mkResourceResponse (State resp1) []) w1
         = Returns resp2 w2
      /\ State resp2 = Some d1
      /\ RDiagnostics resp2 = [].
Proof.
  intros R X p data ds resp w g r1 r2 Hds Hid Hget Hne Hget2.
  eexists. eexists. eexists. eexists. eexists.
  split.
  { run. rewrite Hds, Hid, Hget. cbn. reflexivity. }
  split; [reflexivity|].
  split.
  { run. change (HasError []) with false. cbn.
    unfold federated_graph.missingId. cbn.
    rewrite (proj2 (String.eqb_neq _ _) Hne). cbn.
    rewrite Hget2. cbn. reflexivity. }
  split; reflexivity.
Qed.

Lemma X21_Read_twice_witness :
  exists resp1 w1 d1 resp2 w2,
    federated_graph.Read Fixtures.byStatus (Fixtures.scripted Fixtures.happy)
      (mkReadRequest
         (mkSource (set_RoutingURL (StringValue "http://old") Fixtures.orders) []))
      (Fixtures.tracking Fixtures.orders) (Fixtures.start tt)
    = Returns resp1 w1
    /\ State resp1 = Some d1
    /\ federated_graph.Read Fixtures.byStatus (Fixtures.scripted Fixtures.happy)
         (mkReadRequest (mkSource d1 []))
         (mkResourceResponse (State resp1) []) w1
       = Returns resp2 w2
    /\ State resp2 = Some d1
    /\ RDiagnostics resp2 = [].
Proof.
  apply (X21_Read_twice
           unit Fixtures.byStatus (Fixtures.scripted Fixtures.happy)
           (set_RoutingURL (StringValue "http://old") Fixtures.orders) []
           (Fixtures.tracking Fixtures.orders) (Fixtures.start tt)
           Fixtures.ordersGraph tt tt);
    try reflexivity.
  cbn. discriminate.
Defined.
